(** * Two-way standardization (skggm, [inverse_covariance/two_way_standard_scaler.py])

    A shallow embedding of [two_way_standardize] and of the estimator
    [TwoWayStandardScaler] ([__init__], [fit], [transform],
    [inverse_transform]).

    - A float64 element is a primitive binary64 float ([PrimFloat.float]),
      so [.5 * e / (n_rows * n_cols)], [err_norm > tol], [X *= scale] are
      the IEEE operations the interpreter runs.
    - A two-dimensional ndarray value is its shape and its rows.
    - Python exceptions are the [Raise] results of an error monad.
    - scikit-learn and numpy collaborators whose code is not part of the
      package ([check_array], [scale], [np.linalg.norm],
      [_incremental_mean_and_var], [_handle_zeros_in_scale]) are variables
      of the section that holds the embedding; module [Sklearn] gives
      executable models of them for concrete runs.
    - [inverse_transform] updates arrays in place: it runs in a state monad
      over a store of array buffers and the list of emitted warnings. *)

From Stdlib Require Import ZArith List Bool Lia String.
From Stdlib Require Import Floats.
From stdpp Require Import base option list.
From Equations Require Import Equations.
Import ListNotations.

Local Open Scope Z_scope.

(** ** Exceptions and results *)

(** The exception classes the module can raise or let through. *)
Inductive exn : Type :=
| NotFittedError        (* sklearn.exceptions.NotFittedError *)
| NotImplementedError   (* the spec's UnsupportedInputKind *)
| TypeError
| ValueError            (* the spec's InvalidInput *)
| AttributeError.

Inductive res (A : Type) : Type :=
| Ok (a : A)
| Raise (e : exn).
Arguments Ok {A} a.
Arguments Raise {A} e.

Definition rbind {A B : Type} (r : res A) (k : A -> res B) : res B :=
  match r with
  | Ok a => k a
  | Raise e => Raise e
  end.

Notation "'do' x <- r ; k" := (rbind r (fun x => k))
  (at level 10, x name, r at level 100, k at level 200,
   format "'[v' 'do'  x  <-  r ; '/' k ']'").

(** ** Arrays *)

(** A one-dimensional float64 array. *)
Definition vec : Type := list float.

(** A two-dimensional float64 array: [np.shape] and the rows. *)
Record matrix : Type := Matrix {
  nrows : nat;
  ncols : nat;
  rows  : list (list float)
}.

Definition shape (M : matrix) : nat * nat := (nrows M, ncols M).

(** The rows agree with the shape. *)
Definition wf (M : matrix) : Prop :=
  length (rows M) = nrows M /\ Forall (fun r => length r = ncols M) (rows M).

Definition wfb (M : matrix) : bool :=
  Nat.eqb (length (rows M)) (nrows M)
  && forallb (fun r => Nat.eqb (length r) (ncols M)) (rows M).

(** [M[i, j]] *)
Definition mget (M : matrix) (i j : nat) : float :=
  nth j (nth i (rows M) []) 0%float.

(** The [r] by [c] array whose element [(i, j)] is [f i j]. *)
Definition tabulate (r c : nat) (f : nat -> nat -> float) : matrix :=
  Matrix r c (map (fun i => map (fun j => f i j) (seq 0 c)) (seq 0 r)).

(** [M.T] *)
Definition transpose (M : matrix) : matrix :=
  tabulate (ncols M) (nrows M) (fun i j => mget M j i).

(** numpy's broadcasting of one axis: equal lengths, or one of them 1. *)
Definition broadcast_dim (a b : nat) : option nat :=
  if Nat.eqb a b then Some a
  else if Nat.eqb a 1 then Some b
  else if Nat.eqb b 1 then Some a
  else None.

(** Reading [M] stretched along its axes of length 1. *)
Definition bget (M : matrix) (i j : nat) : float :=
  mget M (if Nat.eqb (nrows M) 1 then 0%nat else i)
         (if Nat.eqb (ncols M) 1 then 0%nat else j).

(** [A - B] on two-dimensional arrays. *)
Definition msub (A B : matrix) : res matrix :=
  match broadcast_dim (nrows A) (nrows B), broadcast_dim (ncols A) (ncols B) with
  | Some r, Some c => Ok (tabulate r c (fun i j => (bget A i j - bget B i j)%float))
  | _, _ => Raise ValueError
  end.

(** The value [X op= v] stores in [X] for a one-dimensional [v]: [v] runs
    along the last axis, and the broadcast shape must be the shape of [X],
    so [v] has the length of a row of [X] or length 1. *)
Definition inplace_bcast (op : float -> float -> float) (X : matrix) (v : vec)
  : res matrix :=
  if Nat.eqb (length v) (ncols X) || Nat.eqb (length v) 1 then
    Ok (tabulate (nrows X) (ncols X)
          (fun i j => op (mget X i j)
                         (nth (if Nat.eqb (length v) 1 then 0%nat else j) v 0%float)))
  else Raise ValueError.

(** The Python int [n] as a float, as in [x / (n_rows * n_cols)]. *)
Definition float_of_nat (n : nat) : float :=
  PrimFloat.of_uint63 (Uint63.of_Z (Z.of_nat n)).

(** What a caller passes as [X], by value: a scipy.sparse matrix or a dense
    array-like. [two_way_standardize], [fit] and [transform] only read their
    argument (they work on [np.copy]s and on the fresh arrays [scale]
    returns), so for them the value is all that matters. *)
Inductive array_like : Type :=
| Sparse (M : matrix)
| Dense (M : matrix).

(** [sparse.issparse] *)
Definition issparse (X : array_like) : bool :=
  match X with
  | Sparse _ => true
  | Dense _ => false
  end.

(** A value together with the equation that says what it is, to keep the
    guard and the body's result at hand in the loop's recursive call. *)
Definition inspect {A : Type} (a : A) : {b : A | a = b} := exist _ a eq_refl.

(** The variables of the [while] loop of [two_way_standardize]. *)
Record loop_state : Type := LoopState {
  Xrow_polish : matrix;
  Xcol_polish : matrix;
  n_iter : Z;
  err_norm : float;
  oldXrow : matrix;
  oldXcol : matrix
}.

(** The variables before the loop (lines 75-82): [Xrow_polish] and
    [oldXrow] are copies of [X.T], [Xcol_polish] and [oldXcol] copies of
    [X]. *)
Definition initial_state (X : matrix) : loop_state :=
  {| Xrow_polish := transpose X; Xcol_polish := X;
     n_iter := 0; err_norm := infinity;
     oldXrow := transpose X; oldXcol := X |}.

(** ** [two_way_standardize] *)

Section TwoWayStandardize.

(** [check_array(X, accept_sparse=None, copy=copy, warn_on_dtype=True,
    dtype=FLOAT_DTYPES)]: the validated array, or an exception. *)
Variable check_array : bool -> array_like -> res array_like.

(** [scale(M, axis=1, with_mean=True, with_std=with_std)]: a new array,
    or an exception of [scale]'s own validation. *)
Variable scale : bool -> matrix -> res matrix.

(** [np.linalg.norm(M, "fro")] *)
Variable norm_fro : matrix -> float.

Section Loop.

Variables (with_std : bool) (n_rows n_cols : nat) (max_iter : Z) (tol : float).

(** [while n_iter <= max_iter and err_norm > tol] *)
Definition loop_cond (st : loop_state) : bool :=
  (n_iter st <=? max_iter) && (tol <? err_norm st)%float.

(** One run of the loop body (lines 84-97; the [print] of [verbose]
    leaves the variables alone). *)
Definition loop_body (st : loop_state) : res loop_state :=
  do Xcol <- scale with_std (transpose (Xrow_polish st));
  do Xrow <- scale with_std (transpose Xcol);
  let n_iter' := n_iter st + 1 in
  do drow <- msub (oldXrow st) Xrow;
  let err_norm_row := norm_fro drow in
  do dcol <- msub (oldXcol st) Xcol;
  let err_norm_col := norm_fro dcol in
  let err :=
    (0.5 * err_norm_row / float_of_nat (n_rows * n_cols)
     + 0.5 * err_norm_col / float_of_nat (n_rows * n_cols))%float in
  Ok {| Xrow_polish := Xrow; Xcol_polish := Xcol;
        n_iter := n_iter'; err_norm := err;
        oldXrow := Xrow; oldXcol := Xcol |}.

(** The loop: it runs while the guard holds, and an exception of the
    body ends it. Every run of the body adds one to [n_iter], which the
    guard bounds by [max_iter]. *)
Equations? while_loop (st : loop_state) : res loop_state
  by wf (Z.to_nat (max_iter + 1 - n_iter st)) lt :=
  while_loop st with inspect (loop_cond st) := {
    | exist _ true Hc with inspect (loop_body st) := {
        | exist _ (Ok st') Hb := while_loop st';
        | exist _ (Raise e) Hb := Raise e };
    | exist _ false Hc := Ok st }.
Proof.
  assert (Hn : n_iter st' = n_iter st + 1).
  { revert Hb. unfold loop_body, rbind.
    repeat (match goal with
            | |- context [match ?r with Ok _ => _ | Raise _ => _ end] =>
                destruct r
            end; try discriminate).
    intros [= <-]. reflexivity. }
  unfold loop_cond in Hc. apply andb_prop in Hc as [Hc _].
  apply Z.leb_le in Hc. lia.
Qed.

(** [runs k st st']: started in [st], the loop is back at its guard
    in [st'] after [k] runs of the body, each entered with the guard
    true and ended without an exception. *)
Inductive runs : nat -> loop_state -> loop_state -> Prop :=
| runs_O (st : loop_state) : runs 0 st st
| runs_S (k : nat) (st st1 st2 : loop_state) :
    loop_cond st = true ->
    loop_body st = Ok st1 ->
    runs k st1 st2 ->
    runs (S k) st st2.

(** The update of the column-working matrix as the specification words
    it: standardize the row-working matrix along its second axis, then
    transpose. *)
Definition claimed_col_update (Xrow : matrix) : res matrix :=
  do S <- scale with_std Xrow;
  Ok (transpose S).

End Loop.

(** [two_way_standardize] up to the end of its loop: the loop variables
    at the [return]. *)
Definition two_way_standardize_loop
    (X : array_like) (with_std copy : bool) (max_iter : Z) (tol : float)
  : res loop_state :=
  do X <- check_array copy X;
  match X with
  | Sparse _ =>
      (* [raise NotImplemented(...)]: the constant [NotImplemented] is
         not callable, so evaluating the operand of [raise] raises
         TypeError. *)
      Raise TypeError
  | Dense X =>
      let n_rows := nrows X in
      let n_cols := ncols X in
      while_loop with_std n_rows n_cols max_iter tol (initial_state X)
  end.

(** [two_way_standardize(X, axis, with_mean, with_std, copy, max_iter,
    tol, verbose)]. The body never reads [axis] and [with_mean];
    [verbose] only prints. *)
Definition two_way_standardize
    (X : array_like) (axis : Z) (with_mean with_std copy : bool)
    (max_iter : Z) (tol : float) (verbose : bool) : res matrix :=
  do st <- two_way_standardize_loop X with_std copy max_iter tol;
  Ok (transpose (Xrow_polish st)).

End TwoWayStandardize.

(** ** The estimator [TwoWayStandardScaler] *)

(** The constructor's parameters and the attributes [fit] sets. An
    attribute that was never assigned is [None]; [col_var_], [row_var_],
    [row_scale_] and [col_scale_] can be assigned Python's [None], which is
    [Some None]. *)
Record estimator : Type := Estimator {
  with_mean : bool;
  with_std : bool;
  copy : bool;
  col_mean_ : option vec;
  n_rows_seen_ : option Z;
  col_var_ : option (option vec);
  row_mean_ : option vec;
  n_cols_seen_ : option Z;
  row_var_ : option (option vec);
  row_scale_ : option (option vec);
  col_scale_ : option (option vec)
}.

(** [TwoWayStandardScaler(copy, with_mean, with_std)] *)
Definition __init__ (copy with_mean with_std : bool) : estimator :=
  {| with_mean := with_mean; with_std := with_std; copy := copy;
     col_mean_ := None; n_rows_seen_ := None; col_var_ := None;
     row_mean_ := None; n_cols_seen_ := None; row_var_ := None;
     row_scale_ := None; col_scale_ := None |}.

(** Modelled from the spec: [check_is_fitted(self, "row_scale_")] of
    scikit-learn, the not-fitted guard: it raises NotFittedError when the
    estimator has no attribute [row_scale_] and returns otherwise. *)
Definition check_is_fitted (self : estimator) : res unit :=
  match row_scale_ self with
  | None => Raise NotFittedError
  | Some _ => Ok tt
  end.

(** [tol=1e-6]: the binary64 value nearest to 1e-6. *)
Definition default_tol : float := 0x1.0c6f7a0b5ed8dp-20%float.

(** [max_iter=50] *)
Definition default_max_iter : Z := 50.

(** [np.sqrt] on a one-dimensional array. *)
Definition np_sqrt (v : vec) : vec := map PrimFloat.sqrt v.

Section Estimator.

Variable check_array : bool -> array_like -> res array_like.
Variable scale : bool -> matrix -> res matrix.
Variable norm_fro : matrix -> float.

(** [_incremental_mean_and_var(X, last_mean, last_variance,
    last_sample_count)]: the updated mean and variance of the columns of
    [X] and the updated count. Called with [last_variance=None] the
    function hands [None] back as the variance; [fit] below stores [None]
    in that case, whatever the variance component here is. *)
Variable incremental_mean_and_var :
  matrix -> float -> option float -> Z -> vec * vec * Z.

(** [_handle_zeros_in_scale] *)
Variable handle_zeros_in_scale : vec -> vec.

(** [fit(self, X, y=None)]: the estimator with the attributes assigned.
    An exception can only come from [check_array] or from the sparse
    test, which both precede the first assignment, so a [Raise] leaves
    the estimator as it was. *)
Definition fit (self : estimator) (X : array_like) : res estimator :=
  do X <- check_array (copy self) X;
  match X with
  | Sparse _ =>
      (* [raise NotImplemented(...)], as in [two_way_standardize] *)
      Raise TypeError
  | Dense X =>
      let col_var0 := if with_std self then Some 0%float else None in
      let '(col_mean, col_var, n_rows_seen) :=
        incremental_mean_and_var X 0%float col_var0 0 in
      let row_var0 := if with_std self then Some 0%float else None in
      let '(row_mean, row_var, n_cols_seen) :=
        incremental_mean_and_var (transpose X) 0%float row_var0 0 in
      Ok {| with_mean := with_mean self;
            with_std := with_std self;
            copy := copy self;
            col_mean_ := Some col_mean;
            n_rows_seen_ := Some n_rows_seen;
            col_var_ := Some (if with_std self then Some col_var else None);
            row_mean_ := Some row_mean;
            n_cols_seen_ := Some n_cols_seen;
            row_var_ := Some (if with_std self then Some row_var else None);
            row_scale_ :=
              Some (if with_std self
                    then Some (handle_zeros_in_scale (np_sqrt row_var))
                    else None);
            col_scale_ :=
              Some (if with_std self
                    then Some (handle_zeros_in_scale (np_sqrt col_var))
                    else None) |}
  end.

(** [transform(self, X, y=None, copy=False)]; [y] is never read. *)
Definition transform (self : estimator) (X : array_like) (copy : bool)
  : res matrix :=
  do _ <- check_is_fitted self;
  do X <- check_array copy X;
  if issparse X then Raise NotImplementedError
  else
    two_way_standardize check_array scale norm_fro
      X 0 true true true default_max_iter default_tol false.

End Estimator.

(** ** Arrays in memory, for [inverse_transform] *)

(** A buffer of the store is named by its index. *)
Abbreviation loc := nat.

(** An ndarray object: the buffer it looks at, and whether it reads it
    transposed ([X.T] is a view on the buffer of [X]). *)
Record ndarray : Type := NdArray {
  base : loc;
  transposed : bool
}.

(** The buffers, and the warnings emitted so far (oldest first). *)
Record world : Type := World {
  heap : list matrix;
  warnings : list string
}.

(** What a caller passes to [inverse_transform]: a scipy.sparse matrix, a
    float64 ndarray, or another array-like (a nested list) with the array
    value [M]. *)
Inductive pyobj : Type :=
| PySparse (M : matrix)
| PyNdarray (a : ndarray)
| PySequence (M : matrix).

Definition py_issparse (X : pyobj) : bool :=
  match X with
  | PySparse _ => true
  | _ => false
  end.

(** The array an ndarray object shows, given the content of its buffer. *)
Definition view (a : ndarray) (B : matrix) : matrix :=
  if transposed a then transpose B else B.

(** The array [a] shows in the store [h] (empty for a dangling object). *)
Definition load (h : list matrix) (a : ndarray) : matrix :=
  match h !! base a with
  | Some B => view a B
  | None => Matrix 0 0 []
  end.

(** Statements that read and write the store and may raise. An exception
    keeps the writes made before it. *)
Definition Py (A : Type) : Type := world -> res A * world.

Definition ret {A : Type} (a : A) : Py A := fun w => (Ok a, w).

Definition raise {A : Type} (e : exn) : Py A := fun w => (Raise e, w).

Definition bind {A B : Type} (m : Py A) (k : A -> Py B) : Py B :=
  fun w =>
    match m w with
    | (Ok a, w') => k a w'
    | (Raise e, w') => (Raise e, w')
    end.

Notation "'run' x <- m ; k" := (bind m (fun x => k))
  (at level 10, x name, m at level 100, k at level 200,
   format "'[v' 'run'  x  <-  m ; '/' k ']'").

Notation "m ;; k" := (bind m (fun _ => k))
  (at level 100, k at level 200, right associativity).

(** [warnings.warn(msg)] *)
Definition warn (msg : string) : Py unit :=
  fun w => (Ok tt, {| heap := heap w; warnings := warnings w ++ [msg] |}).

(** A new buffer holding [B]. *)
Definition alloc (B : matrix) : Py ndarray :=
  fun w => (Ok {| base := length (heap w); transposed := false |},
            {| heap := heap w ++ [B]; warnings := warnings w |}).

(** [np.asarray(X)]: a float64 ndarray is returned as it is, another
    array-like is converted into a new array. *)
Definition np_asarray (X : pyobj) : Py ndarray :=
  match X with
  | PyNdarray a => ret a
  | PySequence B => alloc B
  | PySparse _ =>
      (* not reached from [inverse_transform], which rejects sparse input
         first *)
      raise TypeError
  end.

(** [X.copy()]: a new buffer with what [X] shows. *)
Definition ndarray_copy (a : ndarray) : Py ndarray :=
  fun w => alloc (load (heap w) a) w.

(** [X.T] *)
Definition T (a : ndarray) : ndarray :=
  {| base := base a; transposed := negb (transposed a) |}.

(** Writing the array [R] through the object [a]. *)
Definition store (a : ndarray) (R : matrix) : Py unit :=
  fun w => (Ok tt,
            {| heap := <[base a := view a R]> (heap w);
               warnings := warnings w |}).

(** [X op= v] on an ndarray [X]: the buffer of [X] is updated. *)
Definition inplace (op : float -> float -> float) (a : ndarray) (v : vec)
  : Py unit :=
  fun w =>
    match inplace_bcast op (load (heap w) a) v with
    | Ok R => store a R w
    | Raise e => (Raise e, w)
    end.

(** [X *= self.<scale>] where the attribute is [attr]. *)
Definition imul_attr (a : ndarray) (attr : option (option vec)) : Py unit :=
  match attr with
  | None => raise AttributeError
  | Some None => raise TypeError       (* [X *= None] *)
  | Some (Some v) => inplace PrimFloat.mul a v
  end.

(** [X += self.<mean>] where the attribute is [attr]. *)
Definition iadd_attr (a : ndarray) (attr : option vec) : Py unit :=
  match attr with
  | None => raise AttributeError
  | Some v => inplace PrimFloat.add a v
  end.

(** [if c: stmt] *)
Definition when (c : bool) (stmt : Py unit) : Py unit :=
  if c then stmt else ret tt.

Definition approx_warning : string :=
  "Reversing two way transformation is not accurate.".

(** [inverse_transform(self, X, copy=False)] *)
Definition inverse_transform (self : estimator) (X : pyobj) (copy : bool)
  : Py ndarray :=
  run _ <- (fun w => (check_is_fitted self, w));
  if py_issparse X then raise NotImplementedError
  else
    warn approx_warning ;;
    run X <- np_asarray X;
    run X <- (if copy then ndarray_copy X else ret X);
    let X := T X in
    when (with_std self) (imul_attr X (row_scale_ self)) ;;
    when (with_mean self) (iadd_attr X (row_mean_ self)) ;;
    let X := T X in
    when (with_std self) (imul_attr X (col_scale_ self)) ;;
    when (with_mean self) (iadd_attr X (col_mean_ self)) ;;
    ret X.

(** [X] after [if c: X op= v], as a value. *)
Definition apply_if (c : bool) (op : float -> float -> float)
    (X : matrix) (v : vec) : res matrix :=
  if c then inplace_bcast op X v else Ok X.

(** The inverse transformation as the specification words it, on values:
    transpose, multiply by the row scale, add the row mean, transpose back,
    multiply by the column scale, add the column mean; the products only
    with [with_std], the sums only with [with_mean]. *)
Definition inverse_formula (with_std with_mean : bool)
    (row_scale row_mean col_scale col_mean : vec) (X : matrix) : res matrix :=
  let Xt := transpose X in
  do X1 <- apply_if with_std PrimFloat.mul Xt row_scale;
  do X2 <- apply_if with_mean PrimFloat.add X1 row_mean;
  let Xtt := transpose X2 in
  do X3 <- apply_if with_std PrimFloat.mul Xtt col_scale;
  do X4 <- apply_if with_mean PrimFloat.add X3 col_mean;
  Ok X4.

(** [x op y] when [c], else [x]: an element after [if c: X op= v]. *)
Definition cond_op (c : bool) (op : float -> float -> float) (x y : float)
  : float :=
  if c then op x y else x.

(** The array assigned to a scale attribute ([[]] when it holds [None] or
    was never assigned). *)
Definition scale_of (attr : option (option vec)) : vec :=
  match attr with
  | Some (Some v) => v
  | _ => []
  end.

(** The array assigned to a mean attribute. *)
Definition mean_of (attr : option vec) : vec :=
  match attr with
  | Some v => v
  | None => []
  end.

(** The array a dense argument of [inverse_transform] stands for. *)
Definition value_of (h : list matrix) (X : pyobj) : matrix :=
  match X with
  | PyNdarray a => load h a
  | PySequence B => B
  | PySparse B => B
  end.

(** A dense argument that is a proper array: an ndarray looks at a buffer
    of the store that holds a well-formed array, a sequence converts into
    one. *)
Definition dense_arg (h : list matrix) (X : pyobj) : Prop :=
  match X with
  | PyNdarray a => exists B, h !! base a = Some B /\ wf B
  | PySequence B => wf B
  | PySparse _ => False
  end.

(** Statements that write to the buffer [b] only, and emit no warning. *)
Definition touches_only {A : Type} (b : loc) (m : Py A) : Prop :=
  forall w r w',
    m w = (r, w') ->
    warnings w' = warnings w
    /\ length (heap w') = length (heap w)
    /\ forall l, l <> b -> heap w' !! l = heap w !! l.

(** The estimator holds what a successful [fit] assigns. *)
Definition fitted_attributes (self : estimator) : Prop :=
  (exists row_mean col_mean,
      row_mean_ self = Some row_mean /\ col_mean_ self = Some col_mean)
  /\ (if with_std self
      then exists row_scale col_scale,
          row_scale_ self = Some (Some row_scale)
          /\ col_scale_ self = Some (Some col_scale)
      else row_scale_ self = Some None /\ col_scale_ self = Some None).

(** The statements of [inverse_transform] from [X = X.T] on, [a0] being
    the array that [np.asarray] and [copy] leave in [X]. *)
Definition inverse_steps (self : estimator) (a0 : ndarray) : Py ndarray :=
  let X := T a0 in
  when (with_std self) (imul_attr X (row_scale_ self)) ;;
  when (with_mean self) (iadd_attr X (row_mean_ self)) ;;
  let X := T X in
  when (with_std self) (imul_attr X (col_scale_ self)) ;;
  when (with_mean self) (iadd_attr X (col_mean_ self)) ;;
  ret X.

(** The value-level result for the statistics of [self]. *)
Definition inverse_value (self : estimator) (X : matrix) : res matrix :=
  inverse_formula (with_std self) (with_mean self)
    (scale_of (row_scale_ self)) (mean_of (row_mean_ self))
    (scale_of (col_scale_ self)) (mean_of (col_mean_ self)) X.

(** The shapes at the top of the loop: the old matrices have the shapes of
    the working ones, and the column-working matrix the shape of the
    transposed row-working matrix. *)
Definition shapes_agree (st : loop_state) : Prop :=
  shape (oldXrow st) = shape (Xrow_polish st)
  /\ shape (oldXcol st) = shape (Xcol_polish st)
  /\ shape (Xcol_polish st) = shape (transpose (Xrow_polish st)).

(** ** Executable models of the collaborators

    The functions of scikit-learn and numpy that the package calls, written
    over binary64 floats so that the embedding can be run on concrete
    arrays. *)

Module Sklearn.

Definition fsum (v : vec) : float := fold_left PrimFloat.add v 0%float.

Definition fmean (v : vec) : float :=
  (fsum v / float_of_nat (length v))%float.

(** [np.var] of a one-dimensional array *)
Definition fvar (v : vec) : float :=
  let m := fmean v in
  fmean (map (fun x => ((x - m) * (x - m))%float) v).

Definition fstd (v : vec) : float := PrimFloat.sqrt (fvar v).

(** Modelled from the spec: [_handle_zeros_in_scale] of scikit-learn, the
    near-zero-variance floor: a scale indistinguishable from zero is
    replaced by 1.0. *)
Definition handle_zeros_in_scale (v : vec) : vec :=
  map (fun s => if (s =? 0)%float then 1%float else s) v.

Definition scale_row (with_std : bool) (v : vec) : vec :=
  let m := fmean v in
  let s := hd 1%float (handle_zeros_in_scale [fstd v]) in
  map (fun x => if with_std then ((x - m) / s)%float else (x - m)%float) v.

(** Modelled from the spec: [scale(M, axis=1, with_mean=True,
    with_std=with_std)] of scikit-learn, the one-axis scale function:
    every row is centred on its mean and, with [with_std], divided by its
    standard deviation, a zero deviation being replaced by 1.0. *)
Definition scale (with_std : bool) (M : matrix) : res matrix :=
  Ok (Matrix (nrows M) (ncols M) (map (scale_row with_std) (rows M))).

(** Modelled from the spec: [np.linalg.norm(M, "fro")] of numpy, the
    Frobenius norm: the square root of the sum of the squares. *)
Definition norm_fro (M : matrix) : float :=
  PrimFloat.sqrt (fsum (map (fun x => (x * x)%float) (concat (rows M)))).

(** Modelled from the spec: [check_array] of scikit-learn, the array
    validator: it raises on sparse input (TypeError) and on an array that
    is empty along an axis or holds a value that is not finite
    (ValueError), and returns a dense array otherwise. *)
Definition check_array (copy : bool) (X : array_like) : res array_like :=
  match X with
  | Sparse _ => Raise TypeError
  | Dense M =>
      if wfb M && Nat.ltb 0 (nrows M) && Nat.ltb 0 (ncols M)
         && forallb (forallb PrimFloat.is_finite) (rows M)
      then Ok (Dense M)
      else Raise ValueError
  end.

(** The columns of [M], as one-dimensional arrays. *)
Definition columns (M : matrix) : list vec := rows (transpose M).

(** Modelled from the spec: [_incremental_mean_and_var] of scikit-learn,
    the incremental mean/variance accumulator: it folds the rows of [X]
    into the running column means, variances and count. *)
Definition incremental_mean_and_var
    (X : matrix) (last_mean : float) (last_variance : option float)
    (last_sample_count : Z) : vec * vec * Z :=
  let last_n := float_of_nat (Z.to_nat last_sample_count) in
  let new_n := float_of_nat (nrows X) in
  let updated_sample_count := last_sample_count + Z.of_nat (nrows X) in
  let updated_n := float_of_nat (Z.to_nat updated_sample_count) in
  let last_sum := (last_mean * last_n)%float in
  let updated_mean :=
    map (fun c => ((last_sum + fsum c) / updated_n)%float) (columns X) in
  let updated_variance :=
    map (fun c =>
           let new_unnormalized := (fvar c * new_n)%float in
           let updated_unnormalized :=
             if last_sample_count =? 0 then new_unnormalized
             else
               let last_over_new := (last_n / new_n)%float in
               let last_unnormalized :=
                 (match last_variance with Some v => v | None => 0 end
                  * last_n)%float in
               let d := (last_sum / last_over_new - fsum c)%float in
               (last_unnormalized + new_unnormalized
                + last_over_new / updated_n * (d * d))%float in
           (updated_unnormalized / updated_n)%float) (columns X) in
  (updated_mean, updated_variance, updated_sample_count).

(** The package's functions over these models. *)
Definition two_way_standardize_loop :=
  two_way_standardize_loop check_array scale norm_fro.
Definition two_way_standardize :=
  two_way_standardize check_array scale norm_fro.
Definition fit :=
  fit check_array incremental_mean_and_var handle_zeros_in_scale.
Definition transform := transform check_array scale norm_fro.

End Sklearn.

(** ** Example data *)

Module Examples.

Local Open Scope float_scope.

(** The data of the class docstring. *)
Definition docstring_data : matrix :=
  Matrix 4 2 [[1; 0]; [1; 0]; [2; 1]; [2; 1]].

(** A matrix on which the successive normalization is slow. *)
Definition slow_data : matrix :=
  Matrix 4 4 [[1; 2; 3; 4]; [2; 3; 4; 1]; [3; 4; 1; 2]; [4; 1; 2; 4]].

Definition one_by_one : matrix := Matrix 1 1 [[5]].

Definition one_row : matrix := Matrix 1 2 [[1; 2]].

Definition two_by_two : matrix := Matrix 2 2 [[1; 2]; [3; 5]].

(** Finite values whose sum overflows: [0x1.8p+1023] is 1.5 * 2^1023,
    about 1.35e308. *)
Definition overflow_data : matrix :=
  Matrix 2 2 [[0x1.8p+1023; -0x1.8p+1023]; [0x1.8p+1023; -0x1.8p+1023]].

(** [TwoWayStandardScaler(with_std=False).fit(two_by_two)] *)
Definition fitted_without_std : res estimator :=
  Sklearn.fit (__init__ true true false) (Dense two_by_two).

(** [TwoWayStandardScaler().fit(two_by_two)] *)
Definition fitted_default : res estimator :=
  Sklearn.fit (__init__ true true true) (Dense two_by_two).

End Examples.

(** * Properties *)

(** ** Comparisons of binary64 floats *)

Section FloatOrder.

Local Open Scope float_scope.

Lemma SFcompare_refl (x : spec_float) :
  x <> S754_nan -> SFcompare x x = Some Eq.
Proof.
  destruct x as [s | s | | s m e]; simpl; intros Hx;
    try congruence; try (destruct s; reflexivity).
  repeat match goal with
         | |- context [?f e e] => progress change (f e e) with (Z.compare e e)
         | |- context [?f Eq m m] =>
             progress change (f Eq m m) with (Pos.compare m m)
         end.
  rewrite Z.compare_refl, Pos.compare_refl.
  destruct s; reflexivity.
Qed.

Lemma SFcompare_antisym (x y : spec_float) :
  x <> S754_nan -> y <> S754_nan ->
  exists c, SFcompare x y = Some c /\ SFcompare y x = Some (CompOpp c).
Proof.
  intros Hx Hy.
  destruct x as [sx | sx | | sx mx ex]; try congruence;
    destruct y as [sy | sy | | sy my ey]; try congruence; simpl;
    try (destruct sx; destruct sy; eexists; split; reflexivity);
    try (destruct sx; eexists; split; reflexivity);
    try (destruct sy; eexists; split; reflexivity).
  repeat match goal with
         | |- context [?f ex ey] =>
             progress change (f ex ey) with (Z.compare ex ey)
         | |- context [?f ey ex] =>
             progress change (f ey ex) with (Z.compare ey ex)
         | |- context [?f Eq mx my] =>
             progress change (f Eq mx my) with (Pos.compare mx my)
         | |- context [?f Eq my mx] =>
             progress change (f Eq my mx) with (Pos.compare my mx)
         end.
  rewrite (Z.compare_antisym ex ey), (Pos.compare_antisym mx my).
  destruct sx, sy; try (eexists; split; reflexivity);
    destruct (ex ?= ey)%Z; simpl;
    try (eexists; split; reflexivity);
    destruct (mx ?= my)%positive; simpl; eexists; split; reflexivity.
Qed.

Lemma is_nan_false (x : float) :
  is_nan x = false -> Prim2SF x <> S754_nan.
Proof.
  unfold is_nan. rewrite FloatAxioms.eqb_spec. intros H Hn. rewrite Hn in H. discriminate.
Qed.

(** On numbers, [not (x > y)] is [x <= y]. *)
Lemma ltb_negb_leb (x y : float) :
  is_nan x = false -> is_nan y = false -> (y <? x) = negb (x <=? y).
Proof.
  intros Hx Hy. rewrite ltb_spec, leb_spec. unfold SFltb, SFleb.
  destruct (SFcompare_antisym (Prim2SF x) (Prim2SF y)) as (c & Hxy & Hyx);
    auto using is_nan_false.
  rewrite Hxy, Hyx. destruct c; reflexivity.
Qed.

Lemma SFcompare_nan_r (x : spec_float) : SFcompare x S754_nan = None.
Proof. destruct x; reflexivity. Qed.

Lemma is_nan_true (x : float) : is_nan x = true -> Prim2SF x = S754_nan.
Proof.
  unfold is_nan. rewrite FloatAxioms.eqb_spec. unfold SFeqb. intros H.
  destruct (Prim2SF x) as [s | s | | s m e] eqn:E; [| | reflexivity |];
    rewrite SFcompare_refl in H by discriminate; discriminate.
Qed.

(** [x > y] is false exactly when [x <= y] or one of the two is a NaN. *)
Lemma ltb_false_iff (x y : float) :
  (y <? x) = false
  <-> (x <=? y) = true \/ is_nan x = true \/ is_nan y = true.
Proof.
  destruct (is_nan x) eqn:Hx.
  - apply is_nan_true in Hx. rewrite ltb_spec. unfold SFltb.
    rewrite Hx, SFcompare_nan_r. tauto.
  - destruct (is_nan y) eqn:Hy.
    + apply is_nan_true in Hy. rewrite ltb_spec. unfold SFltb.
      rewrite Hy. simpl. tauto.
    + rewrite (ltb_negb_leb x y Hx Hy).
      destruct (x <=? y); simpl; split; intros H; auto;
        destruct H as [H | [H | H]]; discriminate.
Qed.

End FloatOrder.

(** ** Arrays *)

Section Arrays.

Lemma tabulate_rows_length (r c : nat) (f : nat -> nat -> float) :
  length (rows (tabulate r c f)) = r.
Proof. simpl. rewrite length_map, length_seq. reflexivity. Qed.

Lemma wf_tabulate (r c : nat) (f : nat -> nat -> float) : wf (tabulate r c f).
Proof.
  split; [apply tabulate_rows_length |].
  simpl. apply List.Forall_forall. intros row Hin.
  apply in_map_iff in Hin as (i & <- & _).
  rewrite length_map, length_seq. reflexivity.
Qed.

Lemma mget_tabulate (r c : nat) (f : nat -> nat -> float) (i j : nat) :
  (i < r)%nat -> (j < c)%nat -> mget (tabulate r c f) i j = f i j.
Proof.
  intros Hi Hj. unfold mget. simpl.
  rewrite (nth_indep _ [] (map (fun j => f 0%nat j) (seq 0 c)))
    by (rewrite length_map, length_seq; exact Hi).
  rewrite (map_nth (fun i => map (fun j => f i j) (seq 0 c)) (seq 0 r) 0%nat i).
  rewrite seq_nth by exact Hi. simpl.
  rewrite (nth_indep _ 0%float (f i 0%nat))
    by (rewrite length_map, length_seq; exact Hj).
  rewrite (map_nth (fun j => f i j) (seq 0 c) 0%nat j).
  rewrite seq_nth by exact Hj. reflexivity.
Qed.

Lemma tabulate_ext (r c : nat) (f g : nat -> nat -> float) :
  (forall i j, (i < r)%nat -> (j < c)%nat -> f i j = g i j) ->
  tabulate r c f = tabulate r c g.
Proof.
  intros H. unfold tabulate. f_equal.
  apply map_ext_in. intros i Hi. apply in_seq in Hi.
  apply map_ext_in. intros j Hj. apply in_seq in Hj.
  apply H; lia.
Qed.

Lemma list_tabulate {A : Type} (d : A) (l : list A) :
  map (fun i => nth i l d) (seq 0 (length l)) = l.
Proof.
  apply (nth_ext _ _ d d).
  - rewrite length_map, length_seq. reflexivity.
  - intros n Hn. rewrite length_map, length_seq in Hn.
    rewrite (nth_indep _ d (nth 0 l d))
      by (rewrite length_map, length_seq; exact Hn).
    rewrite (map_nth (fun i => nth i l d) (seq 0 (length l)) 0%nat n).
    rewrite seq_nth by exact Hn. reflexivity.
Qed.

(** A well-formed array is the table of its elements. *)
Lemma tabulate_mget (A : matrix) :
  wf A -> tabulate (nrows A) (ncols A) (mget A) = A.
Proof.
  destruct A as [r c rs]. unfold wf, tabulate, mget. simpl.
  intros [Hr Hc]. f_equal. subst r.
  transitivity (map (fun i => nth i rs []) (seq 0 (length rs)));
    [| apply list_tabulate].
  apply map_ext_in. intros i Hi. apply in_seq in Hi.
  assert (Hlen : length (nth i rs []) = c).
  { rewrite List.Forall_forall in Hc. apply Hc. apply nth_In. lia. }
  rewrite <- Hlen. apply list_tabulate.
Qed.

Lemma wf_transpose (A : matrix) : wf (transpose A).
Proof. apply wf_tabulate. Qed.

Lemma shape_transpose (A : matrix) :
  shape (transpose A) = (ncols A, nrows A).
Proof. reflexivity. Qed.

(** [X.T.T] shows [X] again. *)
Lemma transpose_involutive (A : matrix) :
  wf A -> transpose (transpose A) = A.
Proof.
  intros H. rewrite <- (tabulate_mget A H) at 2.
  unfold transpose at 1. simpl.
  apply tabulate_ext. intros i j Hi Hj.
  unfold transpose. rewrite mget_tabulate by assumption. reflexivity.
Qed.

Lemma wfb_wf (A : matrix) : wfb A = true -> wf A.
Proof.
  unfold wfb, wf. intros H. apply andb_prop in H as [H1 H2].
  split; [apply Nat.eqb_eq, H1 |].
  apply List.Forall_forall. intros r Hr.
  rewrite forallb_forall in H2. apply Nat.eqb_eq, H2, Hr.
Qed.

Lemma inplace_bcast_wf (op : float -> float -> float) (X R : matrix) (v : vec) :
  inplace_bcast op X v = Ok R -> wf R /\ shape R = shape X.
Proof.
  unfold inplace_bcast.
  destruct (_ || _); [| discriminate].
  intros [= <-]. split; [apply wf_tabulate | reflexivity].
Qed.

Lemma msub_shape (A B D : matrix) :
  shape A = shape B -> msub A B = Ok D -> shape D = shape A.
Proof.
  unfold shape, msub, broadcast_dim. intros [= Hr Hc]. rewrite Hr, Hc.
  rewrite !Nat.eqb_refl. intros [= <-]. reflexivity.
Qed.

Lemma msub_same_shape (A B : matrix) :
  shape A = shape B -> exists D, msub A B = Ok D.
Proof.
  unfold shape, msub, broadcast_dim. intros [= Hr Hc]. rewrite Hr, Hc.
  rewrite !Nat.eqb_refl. eexists. reflexivity.
Qed.

End Arrays.

(** ** The loop of [two_way_standardize] *)

Section LoopFacts.

Variable scale : bool -> matrix -> res matrix.
Variable norm_fro : matrix -> float.
Variables (with_std : bool) (n_rows n_cols : nat) (max_iter : Z) (tol : float).

Local Abbreviation body := (loop_body scale norm_fro with_std n_rows n_cols).
Local Abbreviation loop :=
  (while_loop scale norm_fro with_std n_rows n_cols max_iter tol).
Local Abbreviation runs_ :=
  (runs scale norm_fro with_std n_rows n_cols max_iter tol).

(** The loop, unfolded once. *)
Lemma while_loop_eq (st : loop_state) :
  loop st =
  if loop_cond max_iter tol st then
    match body st with
    | Ok st' => loop st'
    | Raise e => Raise e
    end
  else Ok st.
Proof.
  funelim (while_loop scale norm_fro with_std n_rows n_cols max_iter tol st);
    try rewrite Hc; try rewrite Hb; reflexivity.
Qed.

(** What one run of the body computes. *)
Lemma loop_body_inv (st st' : loop_state) :
  body st = Ok st' ->
  exists Xcol Xrow drow dcol,
    scale with_std (transpose (Xrow_polish st)) = Ok Xcol
    /\ scale with_std (transpose Xcol) = Ok Xrow
    /\ msub (oldXrow st) Xrow = Ok drow
    /\ msub (oldXcol st) Xcol = Ok dcol
    /\ st' = {| Xrow_polish := Xrow; Xcol_polish := Xcol;
                n_iter := n_iter st + 1;
                err_norm :=
                  (0.5 * norm_fro drow / float_of_nat (n_rows * n_cols)
                   + 0.5 * norm_fro dcol / float_of_nat (n_rows * n_cols))%float;
                oldXrow := Xrow; oldXcol := Xcol |}.
Proof.
  unfold loop_body, rbind.
  destruct (scale with_std (transpose (Xrow_polish st))) as [Xcol |] eqn:Hc;
    [| discriminate].
  destruct (scale with_std (transpose Xcol)) as [Xrow |] eqn:Hr;
    [| discriminate].
  destruct (msub (oldXrow st) Xrow) as [drow |] eqn:Hdr; [| discriminate].
  destruct (msub (oldXcol st) Xcol) as [dcol |] eqn:Hdc; [| discriminate].
  intros [= <-]. exists Xcol, Xrow, drow, dcol. repeat split; assumption.
Qed.

Lemma loop_body_n_iter (st st' : loop_state) :
  body st = Ok st' -> n_iter st' = n_iter st + 1.
Proof.
  intros H. apply loop_body_inv in H as (? & ? & ? & ? & _ & _ & _ & _ & ->).
  reflexivity.
Qed.

(** At the top of the loop the old matrices are the working ones. *)
Lemma loop_body_old (st st' : loop_state) :
  body st = Ok st' ->
  oldXrow st' = Xrow_polish st' /\ oldXcol st' = Xcol_polish st'.
Proof.
  intros H. apply loop_body_inv in H as (? & ? & ? & ? & _ & _ & _ & _ & ->).
  split; reflexivity.
Qed.

Lemma runs_n_iter (k : nat) (st st' : loop_state) :
  runs_ k st st' -> n_iter st' = n_iter st + Z.of_nat k.
Proof.
  induction 1 as [st | k st st1 st2 Hc Hb _ IH]; [lia |].
  apply loop_body_n_iter in Hb. lia.
Qed.

(** The guard bounds the runs of the body: the last one starts with
    [n_iter <= max_iter]. *)
Lemma runs_bound (k : nat) (st st' : loop_state) :
  runs_ k st st' -> k = 0%nat \/ n_iter st + Z.of_nat k <= max_iter + 1.
Proof.
  induction 1 as [st | k st st1 st2 Hc Hb Hr IH]; [left; reflexivity | right].
  unfold loop_cond in Hc. apply andb_prop in Hc as [Hc _].
  apply Z.leb_le in Hc. apply loop_body_n_iter in Hb.
  destruct IH as [-> | IH]; lia.
Qed.

Lemma runs_old (k : nat) (X : matrix) (st : loop_state) :
  runs_ k (initial_state X) st ->
  oldXrow st = Xrow_polish st /\ oldXcol st = Xcol_polish st.
Proof.
  assert (Hgen : forall k st0 st,
             runs_ k st0 st ->
             oldXrow st0 = Xrow_polish st0 /\ oldXcol st0 = Xcol_polish st0 ->
             oldXrow st = Xrow_polish st /\ oldXcol st = Xcol_polish st).
  { induction 1 as [| ? ? ? ? ? Hb _ IH]; [tauto |].
    intros _. apply IH. eapply loop_body_old, Hb. }
  intros H. apply (Hgen _ _ _ H). split; reflexivity.
Qed.

(** A normal end of the loop is reached through runs of the body and
    leaves the guard false. *)
Lemma while_loop_runs (st st' : loop_state) :
  loop st = Ok st' ->
  exists k, runs_ k st st' /\ loop_cond max_iter tol st' = false.
Proof.
  remember (Z.to_nat (max_iter + 1 - n_iter st)) as m eqn:Hm.
  revert st Hm. induction m as [m IH] using lt_wf_ind. intros st -> Hl.
  rewrite while_loop_eq in Hl.
  destruct (loop_cond max_iter tol st) eqn:Hc.
  - destruct (body st) as [st1 |] eqn:Hb; [| discriminate].
    assert (Hlt : (Z.to_nat (max_iter + 1 - n_iter st1)
                   < Z.to_nat (max_iter + 1 - n_iter st))%nat).
    { pose proof (loop_body_n_iter _ _ Hb) as Hn.
      unfold loop_cond in Hc. apply andb_prop in Hc as [Hc _].
      apply Z.leb_le in Hc. lia. }
    destruct (IH _ Hlt st1 eq_refl Hl) as (k & Hk & Hex).
    exists (S k). split; [| exact Hex].
    eapply runs_S; eassumption.
  - injection Hl as <-. exists 0%nat. split; [constructor | exact Hc].
Qed.

(** Conversely, runs of the body that leave the guard false are how the
    loop ends. *)
Lemma runs_while_loop (k : nat) (st st' : loop_state) :
  runs_ k st st' -> loop_cond max_iter tol st' = false -> loop st = Ok st'.
Proof.
  induction 1 as [st | k st st1 st2 Hc Hb _ IH]; intros Hex;
    rewrite while_loop_eq.
  - rewrite Hex. reflexivity.
  - rewrite Hc, Hb. apply IH, Hex.
Qed.

(** The loop ends in the state it is in exactly when the guard is false
    there. *)
Lemma while_loop_stops_here (st : loop_state) :
  loop st = Ok st <-> loop_cond max_iter tol st = false.
Proof.
  split.
  - intros Hl. destruct (loop_cond max_iter tol st) eqn:Hc; [| reflexivity].
    exfalso. rewrite while_loop_eq, Hc in Hl.
    destruct (body st) as [st1 |] eqn:Hb; [| discriminate].
    apply while_loop_runs in Hl as (k & Hk & _).
    apply runs_n_iter in Hk. apply loop_body_n_iter in Hb. lia.
  - intros Hc. rewrite while_loop_eq, Hc. reflexivity.
Qed.

(** The number of runs of the body is what [n_iter] counts. *)
Lemma while_loop_count (st st' : loop_state) :
  loop st = Ok st' ->
  runs_ (Z.to_nat (n_iter st' - n_iter st)) st st'.
Proof.
  intros Hl. apply while_loop_runs in Hl as (k & Hk & _).
  pose proof (runs_n_iter _ _ _ Hk) as Hn.
  replace (Z.to_nat (n_iter st' - n_iter st)) with k by lia. exact Hk.
Qed.

Section Shapes.

(** [scale] returns an array of the shape of its argument. *)
Hypothesis scale_shape :
  forall (b : bool) (A B : matrix), scale b A = Ok B -> shape B = shape A.

Lemma loop_body_shape (st st' : loop_state) :
  body st = Ok st' -> shape (Xrow_polish st') = shape (Xrow_polish st).
Proof.
  intros H.
  apply loop_body_inv in H as (Xcol & Xrow & ? & ? & Hc & Hr & _ & _ & ->).
  simpl. apply scale_shape in Hc, Hr.
  rewrite Hr. rewrite shape_transpose.
  unfold shape in Hc. simpl in Hc. injection Hc as -> ->. reflexivity.
Qed.

Lemma runs_shape (k : nat) (st st' : loop_state) :
  runs_ k st st' -> shape (Xrow_polish st') = shape (Xrow_polish st).
Proof.
  induction 1 as [| ? ? ? ? _ Hb _ IH]; [reflexivity |].
  rewrite IH. eapply loop_body_shape, Hb.
Qed.

End Shapes.

End LoopFacts.

(** ** The models of the collaborators *)

Section SklearnFacts.

Lemma sklearn_scale_shape (b : bool) (A B : matrix) :
  Sklearn.scale b A = Ok B -> shape B = shape A.
Proof. unfold Sklearn.scale. intros [= <-]. reflexivity. Qed.

Lemma sklearn_check_array_dense (copy : bool) (X X' : matrix) :
  Sklearn.check_array copy (Dense X) = Ok (Dense X') -> shape X' = shape X.
Proof.
  unfold Sklearn.check_array.
  destruct (_ && _); [| discriminate]. intros [= <-]. reflexivity.
Qed.

End SklearnFacts.

(** ** Claims on [two_way_standardize] *)

Section TwoWayStandardizeClaims.

Import Examples.

Variable check_array : bool -> array_like -> res array_like.
Variable scale : bool -> matrix -> res matrix.
Variable norm_fro : matrix -> float.

(** The result of [two_way_standardize] is the transpose of the
    row-working matrix the loop ends with. *)
Lemma two_way_standardize_inv
    (X : array_like) (axis : Z) (with_mean with_std copy : bool)
    (max_iter : Z) (tol : float) (verbose : bool) (R : matrix) :
  two_way_standardize check_array scale norm_fro
    X axis with_mean with_std copy max_iter tol verbose = Ok R ->
  exists X' st,
    check_array copy X = Ok (Dense X')
    /\ while_loop scale norm_fro with_std (nrows X') (ncols X') max_iter tol
         (initial_state X') = Ok st
    /\ two_way_standardize_loop check_array scale norm_fro
         X with_std copy max_iter tol = Ok st
    /\ R = transpose (Xrow_polish st).
Proof.
  unfold two_way_standardize, two_way_standardize_loop, rbind.
  destruct (check_array copy X) as [[S | X'] |]; try discriminate.
  destruct (while_loop _ _ _ _ _ _ _ _) as [st |] eqn:Hl; [| discriminate].
  intros [= <-]. exists X', st. repeat split; assumption.
Qed.

End TwoWayStandardizeClaims.

(** C3 (a defect of the code): the guard [n_iter <= max_iter] lets the body
    run [max_iter + 1] times. With the default [max_iter=50] and
    [tol=1e-6] the loop runs 51 times on a 4 by 4 matrix whose error is
    still above [tol], and with [max_iter=1] it runs twice on [[5.]]. *)
Theorem two_way_standardize_overruns_max_iter :
  (exists st,
      Sklearn.two_way_standardize_loop
        (Dense Examples.slow_data) true true default_max_iter default_tol = Ok st
      /\ runs Sklearn.scale Sklearn.norm_fro true 4 4 default_max_iter default_tol
           51 (initial_state Examples.slow_data) st
      /\ (default_tol <? err_norm st)%float = true)
  /\ (exists st,
         Sklearn.two_way_standardize_loop
           (Dense Examples.one_by_one) true true 1 default_tol = Ok st
         /\ runs Sklearn.scale Sklearn.norm_fro true 1 1 1 default_tol
              2 (initial_state Examples.one_by_one) st).
Proof.
  split.
  - eexists. split; [vm_compute; reflexivity |]. split; [| vm_compute; reflexivity].
    match goal with
    | |- runs _ _ _ _ _ _ _ _ ?s0 ?s1 =>
        apply (while_loop_count Sklearn.scale Sklearn.norm_fro true 4 4
                 default_max_iter default_tol s0 s1)
    end.
    vm_compute. reflexivity.
  - eexists. split; [vm_compute; reflexivity |].
    match goal with
    | |- runs _ _ _ _ _ _ _ _ ?s0 ?s1 =>
        apply (while_loop_count Sklearn.scale Sklearn.norm_fro true 1 1
                 1 default_tol s0 s1)
    end.
    vm_compute. reflexivity.
Qed.

(** C4, as the claim words it, fails: on the 1 by 2 input [[1., 2.]] the
    first run of the body makes the column-working matrix [[-1., 1.]] (the
    row of the input, standardized), whereas standardizing the row-working
    matrix [[1.], [2.]] along its second axis and transposing gives
    [[0., 0.]]. *)
Lemma claimed_col_update_differs :
  exists st',
    loop_body Sklearn.scale Sklearn.norm_fro true 1 2
      (initial_state Examples.one_row) = Ok st'
    /\ rows (Xcol_polish st') = [[(-1)%float; 1%float]]
    /\ claimed_col_update Sklearn.scale true
         (Xrow_polish (initial_state Examples.one_row))
       = Ok (Matrix 1 2 [[0%float; 0%float]])
    /\ claimed_col_update Sklearn.scale true
         (Xrow_polish (initial_state Examples.one_row))
       <> Ok (Xcol_polish st').
Proof.
  eexists. split; [vm_compute; reflexivity |].
  split; [reflexivity |]. split; [vm_compute; reflexivity |].
  intros H. vm_compute in H.
  apply (f_equal (fun r => match r with
                           | Ok A => (mget A 0 0 =? 0)%float
                           | Raise _ => false
                           end)) in H.
  vm_compute in H. discriminate.
Qed.

(** C4 (amended): in every run of the body the column-working matrix
    becomes [scale] of the transposed row-working matrix (one mean and
    scale per row of the transpose, that is per row of the input) and the
    row-working matrix becomes [scale] of the transposed new column-working
    matrix, with no transposition after [scale]; the value
    [two_way_standardize] returns is the transpose of the row-working
    matrix the loop ends with. *)
Theorem polish_updates_and_result
    (check_array : bool -> array_like -> res array_like)
    (scale : bool -> matrix -> res matrix) (norm_fro : matrix -> float)
    (X : array_like) (axis : Z) (with_mean with_std copy : bool)
    (max_iter : Z) (tol : float) (verbose : bool) (R : matrix) :
  two_way_standardize check_array scale norm_fro
    X axis with_mean with_std copy max_iter tol verbose = Ok R ->
  (exists st,
      two_way_standardize_loop check_array scale norm_fro
        X with_std copy max_iter tol = Ok st
      /\ R = transpose (Xrow_polish st))
  /\ (forall (n_rows n_cols : nat) (st st' : loop_state),
         loop_body scale norm_fro with_std n_rows n_cols st = Ok st' ->
         scale with_std (transpose (Xrow_polish st)) = Ok (Xcol_polish st')
         /\ scale with_std (transpose (Xcol_polish st')) = Ok (Xrow_polish st')).
Proof.
  intros HR. split.
  - apply two_way_standardize_inv in HR as (X' & st & _ & _ & Hl & ->).
    exists st. split; [exact Hl | reflexivity].
  - intros n_rows n_cols st st' Hb.
    apply loop_body_inv in Hb as (Xcol & Xrow & ? & ? & Hc & Hr & _ & _ & ->).
    simpl. split; assumption.
Qed.

Lemma polish_updates_and_result_witness :
  (exists st,
      two_way_standardize_loop Sklearn.check_array Sklearn.scale Sklearn.norm_fro
        (Dense Examples.one_row) true true default_max_iter default_tol = Ok st
      /\ Matrix 1 2 [[0%float; 0%float]] = transpose (Xrow_polish st))
  /\ (forall (n_rows n_cols : nat) (st st' : loop_state),
         loop_body Sklearn.scale Sklearn.norm_fro true n_rows n_cols st = Ok st' ->
         Sklearn.scale true (transpose (Xrow_polish st)) = Ok (Xcol_polish st')
         /\ Sklearn.scale true (transpose (Xcol_polish st')) = Ok (Xrow_polish st')).
Proof.
  apply (polish_updates_and_result
           Sklearn.check_array Sklearn.scale Sklearn.norm_fro
           (Dense Examples.one_row) 0 true true true
           default_max_iter default_tol false).
  vm_compute. reflexivity.
Defined.

(** C5, as the claim words it, fails: on a 2 by 2 array of finite values
    that the validator accepts, with [with_std=False], the sums of the
    second run overflow; the loop stops after 2 of its 51 possible runs
    with an error that is NaN, and that error is not at most [tol]. *)
Lemma early_stop_with_nan_error :
  exists st,
    Sklearn.two_way_standardize_loop (Dense Examples.overflow_data)
      false true default_max_iter default_tol = Ok st
    /\ n_iter st = 2
    /\ n_iter st <= default_max_iter
    /\ while_loop Sklearn.scale Sklearn.norm_fro false 2 2
         default_max_iter default_tol st = Ok st
    /\ is_nan (err_norm st) = true
    /\ (err_norm st <=? default_tol)%float = false.
Proof.
  eexists. split; [vm_compute; reflexivity |].
  repeat split; try (vm_compute; reflexivity).
  vm_compute. discriminate.
Qed.

(** C5 (amended): in every run of the body, the error is the half-and-half
    average of the Frobenius norms of the changes of the row-working and
    of the column-working matrix since the previous iteration, each
    divided by the number of elements [n_rows * n_cols]; and while the
    budget lasts ([n_iter <= max_iter]) the loop stops after this run
    exactly when [err_norm > tol] is false, that is when the error is at
    most [tol] or the error or [tol] is a NaN. *)
Theorem convergence_error_and_early_stop
    (scale : bool -> matrix -> res matrix) (norm_fro : matrix -> float)
    (with_std : bool) (max_iter : Z) (tol : float)
    (X : matrix) (k : nat) (st st' : loop_state) :
  runs scale norm_fro with_std (nrows X) (ncols X) max_iter tol
    k (initial_state X) st ->
  loop_body scale norm_fro with_std (nrows X) (ncols X) st = Ok st' ->
  (exists drow dcol,
      msub (Xrow_polish st) (Xrow_polish st') = Ok drow
      /\ msub (Xcol_polish st) (Xcol_polish st') = Ok dcol
      /\ err_norm st'
         = (0.5 * norm_fro drow / float_of_nat (nrows X * ncols X)
            + 0.5 * norm_fro dcol / float_of_nat (nrows X * ncols X))%float)
  /\ (n_iter st' <= max_iter ->
      (while_loop scale norm_fro with_std (nrows X) (ncols X) max_iter tol st'
       = Ok st'
       <-> ((err_norm st' <=? tol)%float = true
            \/ is_nan (err_norm st') = true
            \/ is_nan tol = true))).
Proof.
  intros Hruns Hb. split.
  - apply runs_old in Hruns as [Hor Hoc].
    apply loop_body_inv in Hb
      as (Xcol & Xrow & drow & dcol & _ & _ & Hdr & Hdc & ->).
    simpl. exists drow, dcol. rewrite <- Hor, <- Hoc. auto.
  - intros Hn. rewrite while_loop_stops_here, <- ltb_false_iff.
    unfold loop_cond. apply Z.leb_le in Hn. rewrite Hn. simpl. tauto.
Qed.

Lemma convergence_error_and_early_stop_witness :
  exists st',
    loop_body Sklearn.scale Sklearn.norm_fro true 4 2
      (initial_state Examples.docstring_data) = Ok st'
    /\ (exists drow dcol,
           msub (Xrow_polish (initial_state Examples.docstring_data))
             (Xrow_polish st') = Ok drow
           /\ msub (Xcol_polish (initial_state Examples.docstring_data))
                (Xcol_polish st') = Ok dcol
           /\ err_norm st'
              = (0.5 * Sklearn.norm_fro drow / float_of_nat (4 * 2)
                 + 0.5 * Sklearn.norm_fro dcol / float_of_nat (4 * 2))%float)
    /\ (while_loop Sklearn.scale Sklearn.norm_fro true 4 2
          default_max_iter default_tol st' = Ok st'
        <-> ((err_norm st' <=? default_tol)%float = true
             \/ is_nan (err_norm st') = true
             \/ is_nan default_tol = true)).
Proof.
  eexists. split; [vm_compute; reflexivity |].
  match goal with
  | |- (exists drow dcol, _ /\ _ /\ err_norm ?s = _) /\ _ =>
      pose proof (convergence_error_and_early_stop
                    Sklearn.scale Sklearn.norm_fro true
                    default_max_iter default_tol
                    Examples.docstring_data 0
                    (initial_state Examples.docstring_data) s
                    (runs_O _ _ _ _ _ _ _ _)
                    eq_refl) as [Herr Hstop]
  end.
  split; [exact Herr |].
  apply Hstop. vm_compute. discriminate.
Defined.

(** C9: [two_way_standardize] returns an array of the shape of its input
    ([check_array] accepting the input in its shape, and [scale] keeping
    the shape of its argument). *)
Theorem two_way_standardize_shape
    (check_array : bool -> array_like -> res array_like)
    (scale : bool -> matrix -> res matrix) (norm_fro : matrix -> float)
    (X : matrix) (axis : Z) (with_mean with_std copy : bool)
    (max_iter : Z) (tol : float) (verbose : bool) (R : matrix) :
  (forall (b : bool) (A B : matrix), scale b A = Ok B -> shape B = shape A) ->
  (forall X', check_array copy (Dense X) = Ok (Dense X') -> shape X' = shape X) ->
  two_way_standardize check_array scale norm_fro
    (Dense X) axis with_mean with_std copy max_iter tol verbose = Ok R ->
  shape R = shape X.
Proof.
  intros Hscale Hcheck HR.
  apply two_way_standardize_inv in HR as (X' & st & Hca & Hl & _ & ->).
  apply Hcheck in Hca. apply while_loop_runs in Hl as (k & Hk & _).
  apply (runs_shape _ _ _ _ _ _ _ Hscale) in Hk.
  rewrite shape_transpose. unfold shape in Hk. simpl in Hk.
  injection Hk as -> ->. exact Hca.
Qed.

Lemma two_way_standardize_shape_witness :
  exists R,
    Sklearn.two_way_standardize (Dense Examples.docstring_data)
      0 true true true default_max_iter default_tol false = Ok R
    /\ shape R = (4%nat, 2%nat).
Proof.
  eexists. split; [vm_compute; reflexivity |].
  apply (two_way_standardize_shape
           Sklearn.check_array Sklearn.scale Sklearn.norm_fro
           Examples.docstring_data 0 true true true
           default_max_iter default_tol false).
  - exact sklearn_scale_shape.
  - exact (sklearn_check_array_dense true Examples.docstring_data).
  - vm_compute. reflexivity.
Defined.

(** ** Claims on the estimator *)

Section EstimatorFacts.

Variable check_array : bool -> array_like -> res array_like.
Variable scale : bool -> matrix -> res matrix.
Variable norm_fro : matrix -> float.
Variable incremental_mean_and_var :
  matrix -> float -> option float -> Z -> vec * vec * Z.
Variable handle_zeros_in_scale : vec -> vec.

Local Abbreviation fit_ :=
  (fit check_array incremental_mean_and_var handle_zeros_in_scale).
Local Abbreviation transform_ := (transform check_array scale norm_fro).

(** A new estimator has no fitted attribute. *)
Lemma init_unfitted (copy with_mean with_std : bool) :
  row_scale_ (__init__ copy with_mean with_std) = None.
Proof. reflexivity. Qed.

(** What a successful [fit] leaves in the estimator: the constructor's
    parameters, the means, and the scales exactly when [with_std]. *)
Lemma fit_attributes (self est : estimator) (X : array_like) :
  fit_ self X = Ok est ->
  with_std est = with_std self
  /\ with_mean est = with_mean self
  /\ (exists row_mean col_mean,
         row_mean_ est = Some row_mean /\ col_mean_ est = Some col_mean)
  /\ (if with_std est
      then exists row_scale col_scale,
          row_scale_ est = Some (Some row_scale)
          /\ col_scale_ est = Some (Some col_scale)
      else row_scale_ est = Some None /\ col_scale_ est = Some None).
Proof.
  unfold fit, rbind.
  destruct (check_array (copy self) X) as [[S | X'] |]; try discriminate.
  destruct (incremental_mean_and_var X' _ _ _) as [[cm cv] cn].
  destruct (incremental_mean_and_var (transpose X') _ _ _) as [[rm rv] rn].
  intros [= <-]. simpl. repeat split.
  - eauto.
  - destruct (with_std self); eauto.
Qed.

Lemma fit_fitted (self est : estimator) (X : array_like) :
  fit_ self X = Ok est -> check_is_fitted est = Ok tt.
Proof.
  intros H. apply fit_attributes in H as (_ & _ & _ & H).
  unfold check_is_fitted.
  destruct (with_std est); [destruct H as (? & ? & -> & _) | destruct H as [-> _]];
    reflexivity.
Qed.

(** On a fitted estimator [transform] is the validation of [X] followed
    by [two_way_standardize] with the defaults of its signature: nothing
    of the estimator is read after the guard. *)
Lemma transform_fitted (self : estimator) (X : array_like) (copy : bool) :
  check_is_fitted self = Ok tt ->
  transform_ self X copy =
  do X' <- check_array copy X;
  if issparse X' then Raise NotImplementedError
  else two_way_standardize check_array scale norm_fro
         X' 0 true true true default_max_iter default_tol false.
Proof. unfold transform. intros ->. reflexivity. Qed.

End EstimatorFacts.

(** C1 (a defect of the code): [transform] calls [two_way_standardize(X)]
    with the defaults of the function, so it scales to unit variance
    whatever [with_std] the constructor was given. An estimator built with
    [with_std=False] and fitted transforms [[1., 2.], [3., 5.]] into the
    zero matrix, the result of the procedure with [with_std=True], whereas
    the procedure with the estimator's [with_std] gives
    [[0.25, -0.25], [-0.25, 0.25]]. *)
Theorem transform_ignores_with_std :
  exists est,
    Examples.fitted_without_std = Ok est
    /\ with_std est = false
    /\ Sklearn.transform est (Dense Examples.two_by_two) false
       = Sklearn.two_way_standardize (Dense Examples.two_by_two)
           0 true true true default_max_iter default_tol false
    /\ Sklearn.transform est (Dense Examples.two_by_two) false
       = Ok (Matrix 2 2 [[0; 0]; [0; 0]]%float)
    /\ Sklearn.two_way_standardize (Dense Examples.two_by_two)
         0 true (with_std est) true default_max_iter default_tol false
       = Ok (Matrix 2 2 [[0.25; -0.25]; [-0.25; 0.25]]%float).
Proof.
  eexists. split; [vm_compute; reflexivity |].
  repeat split; vm_compute; reflexivity.
Qed.

(** C2, as the claim words it, fails: on an estimator that was never
    fitted, [transform] and [inverse_transform] answer a sparse input with
    NotFittedError, the guard coming first; [two_way_standardize] and
    [fit] raise what [check_array] raises on a sparse matrix (TypeError in
    the model of the validator); and a sparse matrix that passes
    [check_array] meets [raise NotImplemented(...)] there, which raises
    TypeError. *)
Lemma sparse_input_other_errors :
  Sklearn.transform (__init__ true true true) (Sparse Examples.two_by_two) false
  = Raise NotFittedError
  /\ inverse_transform (__init__ true true true)
       (PySparse Examples.two_by_two) false (World [] [])
     = (Raise NotFittedError, World [] [])
  /\ Sklearn.two_way_standardize (Sparse Examples.two_by_two) 0 true true true
       default_max_iter default_tol false
     = Raise TypeError
  /\ Sklearn.fit (__init__ true true true) (Sparse Examples.two_by_two)
     = Raise TypeError
  /\ two_way_standardize (fun _ X => Ok X) Sklearn.scale Sklearn.norm_fro
       (Sparse Examples.two_by_two) 0 true true true
       default_max_iter default_tol false
     = Raise TypeError
  /\ fit (fun _ X => Ok X) Sklearn.incremental_mean_and_var
       Sklearn.handle_zeros_in_scale
       (__init__ true true true) (Sparse Examples.two_by_two)
     = Raise TypeError.
Proof. repeat split. Qed.

(** C2 (amended): for every sparse input, [inverse_transform] on a fitted
    estimator raises NotImplementedError (UnsupportedInputKind) before it
    warns or touches an array; [transform] on a fitted estimator raises
    the exception of [check_array] when [check_array] rejects the input,
    and NotImplementedError when [check_array] hands a sparse matrix back;
    on an estimator that is not fitted both raise NotFittedError;
    [two_way_standardize] and [fit] raise the exception of [check_array]
    when [check_array] rejects the input. *)
Theorem sparse_input_rejected
    (check_array : bool -> array_like -> res array_like)
    (scale : bool -> matrix -> res matrix) (norm_fro : matrix -> float)
    (incremental_mean_and_var :
       matrix -> float -> option float -> Z -> vec * vec * Z)
    (handle_zeros_in_scale : vec -> vec)
    (self : estimator) (S : matrix) (cp : bool) (w : world)
    (axis : Z) (with_mean with_std : bool) (max_iter : Z) (tol : float)
    (verbose : bool) :
  match row_scale_ self with
  | Some _ =>
      inverse_transform self (PySparse S) cp w = (Raise NotImplementedError, w)
      /\ match check_array cp (Sparse S) with
         | Raise e =>
             transform check_array scale norm_fro self (Sparse S) cp = Raise e
         | Ok (Sparse _) =>
             transform check_array scale norm_fro self (Sparse S) cp
             = Raise NotImplementedError
         | Ok (Dense _) => True
         end
  | None =>
      inverse_transform self (PySparse S) cp w = (Raise NotFittedError, w)
      /\ transform check_array scale norm_fro self (Sparse S) cp
         = Raise NotFittedError
  end
  /\ match check_array cp (Sparse S) with
     | Raise e =>
         two_way_standardize check_array scale norm_fro
           (Sparse S) axis with_mean with_std cp max_iter tol verbose
         = Raise e
     | Ok _ => True
     end
  /\ match check_array (copy self) (Sparse S) with
     | Raise e =>
         fit check_array incremental_mean_and_var handle_zeros_in_scale
           self (Sparse S)
         = Raise e
     | Ok _ => True
     end.
Proof.
  split; [| split].
  - unfold inverse_transform, transform, check_is_fitted, bind, rbind.
    destruct (row_scale_ self) as [rs |]; simpl.
    + split; [reflexivity |].
      destruct (check_array cp (Sparse S)) as [[S' | X'] | e]; simpl; auto.
    + split; reflexivity.
  - unfold two_way_standardize, two_way_standardize_loop, rbind.
    destruct (check_array cp (Sparse S)); auto.
  - unfold fit, rbind.
    destruct (check_array _ (Sparse S)); auto.
Qed.

(** C6: on an estimator on which [fit] has not succeeded (it has no
    attribute [row_scale_], as a new one), [transform] and
    [inverse_transform] raise NotFittedError for every argument; no array
    is computed, and the store and the warnings stay as they were. *)
Theorem not_fitted_guard
    (check_array : bool -> array_like -> res array_like)
    (scale : bool -> matrix -> res matrix) (norm_fro : matrix -> float)
    (self : estimator) :
  row_scale_ self = None ->
  (forall (X : array_like) (copy : bool),
      transform check_array scale norm_fro self X copy = Raise NotFittedError)
  /\ (forall (X : pyobj) (copy : bool) (w : world),
         inverse_transform self X copy w = (Raise NotFittedError, w)).
Proof.
  intros H. split.
  - intros X copy. unfold transform, check_is_fitted. rewrite H. reflexivity.
  - intros X copy w.
    unfold inverse_transform, check_is_fitted, bind. rewrite H. reflexivity.
Qed.

Lemma not_fitted_guard_witness :
  (forall (X : array_like) (copy : bool),
      Sklearn.transform (__init__ true true true) X copy = Raise NotFittedError)
  /\ (forall (X : pyobj) (copy : bool) (w : world),
         inverse_transform (__init__ true true true) X copy w
         = (Raise NotFittedError, w)).
Proof.
  apply (not_fitted_guard Sklearn.check_array Sklearn.scale Sklearn.norm_fro
           (__init__ true true true)).
  reflexivity.
Defined.

(** ** The store *)

Section StoreFacts.

Lemma wf_view (a : ndarray) (B : matrix) : wf B -> wf (view a B).
Proof. unfold view. destruct (transposed a); auto using wf_transpose. Qed.

Lemma view_view (a : ndarray) (R : matrix) : wf R -> view a (view a R) = R.
Proof.
  unfold view. destruct (transposed a); auto using transpose_involutive.
Qed.

Lemma view_T (a : ndarray) (B : matrix) :
  wf B -> view (T a) B = transpose (view a B).
Proof.
  unfold view, T. simpl. destruct (transposed a); simpl; intros H;
    [symmetry; apply transpose_involutive, H | reflexivity].
Qed.

Lemma view_view_T (a : ndarray) (R : matrix) :
  view a (view (T a) R) = transpose R.
Proof. unfold view, T. simpl. destruct (transposed a); reflexivity. Qed.

(** [X.T.T] looks at the buffer the way [X] does. *)
Lemma T_T (a : ndarray) : T (T a) = a.
Proof. destruct a as [b t]. unfold T. simpl. rewrite negb_involutive. reflexivity. Qed.

Lemma apply_if_wf (c : bool) (op : float -> float -> float)
    (X R : matrix) (v : vec) :
  wf X -> apply_if c op X v = Ok R -> wf R.
Proof.
  unfold apply_if. destruct c.
  - intros _ H. apply inplace_bcast_wf in H. tauto.
  - intros H [= <-]. exact H.
Qed.

(** A conditional in-place statement, run on a buffer that holds [B]. *)
Lemma when_inplace_run (c : bool) (op : float -> float -> float)
    (a : ndarray) (v : vec) (w : world) (B : matrix) :
  heap w !! base a = Some B ->
  wf B ->
  when c (inplace op a v) w =
  match apply_if c op (view a B) v with
  | Ok R =>
      (Ok tt, {| heap := <[base a := view a R]> (heap w);
                 warnings := warnings w |})
  | Raise e => (Raise e, w)
  end.
Proof.
  intros Hb Hwf. unfold when, apply_if. destruct c.
  - unfold inplace, load. rewrite Hb.
    destruct (inplace_bcast op (view a B) v); reflexivity.
  - unfold ret. cbn. rewrite (view_view a B Hwf).
    rewrite (list_insert_id (heap w) (base a) B Hb).
    destruct w; reflexivity.
Qed.

Lemma touches_only_ret {A : Type} (b : loc) (x : A) : touches_only b (ret x).
Proof. intros w r w' [= _ <-]. auto. Qed.

Lemma touches_only_raise {A : Type} (b : loc) (e : exn) :
  touches_only b (@raise A e).
Proof. intros w r w' [= _ <-]. auto. Qed.

Lemma touches_only_bind {A B : Type} (b : loc) (m : Py A) (k : A -> Py B) :
  touches_only b m -> (forall x, touches_only b (k x)) ->
  touches_only b (bind m k).
Proof.
  intros Hm Hk w r w'. unfold bind.
  destruct (m w) as [[x | e] w1] eqn:E; intros H.
  - destruct (Hm _ _ _ E) as (Hw & Hl & Hh).
    destruct (Hk x _ _ _ H) as (Hw' & Hl' & Hh').
    repeat split; [congruence | congruence |].
    intros l Hne. rewrite Hh', Hh by exact Hne. reflexivity.
  - injection H as <- <-. exact (Hm _ _ _ E).
Qed.

Lemma touches_only_inplace (op : float -> float -> float)
    (a : ndarray) (v : vec) :
  touches_only (base a) (inplace op a v).
Proof.
  intros w r w'. unfold inplace, store.
  destruct (inplace_bcast op (load (heap w) a) v); intros [= _ <-]; simpl.
  - repeat split; [apply length_insert |].
    intros l Hne. apply list_lookup_insert_ne. congruence.
  - auto.
Qed.

Lemma touches_only_when (b : loc) (c : bool) (m : Py unit) :
  touches_only b m -> touches_only b (when c m).
Proof. destruct c; [auto | intros _; apply touches_only_ret]. Qed.

Lemma touches_only_imul_attr (a : ndarray) (attr : option (option vec)) :
  touches_only (base a) (imul_attr a attr).
Proof.
  destruct attr as [[v |] |]; simpl;
    auto using touches_only_inplace, touches_only_raise.
Qed.

Lemma touches_only_iadd_attr (a : ndarray) (attr : option vec) :
  touches_only (base a) (iadd_attr a attr).
Proof.
  destruct attr as [v |]; simpl;
    auto using touches_only_inplace, touches_only_raise.
Qed.

End StoreFacts.

(** ** [inverse_transform] *)

Section InverseTransform.

Lemma inverse_transform_steps (self : estimator) (X : pyobj) (copy : bool) :
  check_is_fitted self = Ok tt ->
  py_issparse X = false ->
  inverse_transform self X copy =
  (warn approx_warning ;;
   run X <- np_asarray X;
   run X <- (if copy then ndarray_copy X else ret X);
   inverse_steps self X).
Proof.
  intros Hf Hs. unfold inverse_transform. rewrite Hf, Hs. reflexivity.
Qed.

Lemma when_imul_attr (self : estimator) (a : ndarray)
    (attr : option (option vec)) :
  (if with_std self then exists v, attr = Some (Some v) else True) ->
  when (with_std self) (imul_attr a attr)
  = when (with_std self) (inplace PrimFloat.mul a (scale_of attr)).
Proof.
  destruct (with_std self); [| reflexivity].
  intros [v ->]. reflexivity.
Qed.

Lemma when_iadd_attr (c : bool) (a : ndarray) (attr : option vec) :
  (exists v, attr = Some v) ->
  when c (iadd_attr a attr) = when c (inplace PrimFloat.add a (mean_of attr)).
Proof. intros [v ->]. reflexivity. Qed.

(** The in-place statements compute the value-level formula in the
    buffer of [a0], and give back an array that looks at this buffer as
    [a0] does. *)
Lemma inverse_steps_run (self : estimator) (a0 : ndarray) (w : world)
    (B0 : matrix) :
  fitted_attributes self ->
  heap w !! base a0 = Some B0 ->
  wf B0 ->
  match inverse_value self (view a0 B0) with
  | Ok R =>
      inverse_steps self a0 w
      = (Ok a0, {| heap := <[base a0 := view a0 R]> (heap w);
                   warnings := warnings w |})
      /\ wf R
  | Raise e => exists w', inverse_steps self a0 w = (Raise e, w')
  end.
Proof.
  intros [(rm & cm & Hrm & Hcm) Hsc] Hb Hwf.
  pose proof (lookup_lt_Some _ _ _ Hb) as Hlt.
  unfold inverse_steps, inverse_value, inverse_formula.
  assert (Hrs : if with_std self
                then exists v, row_scale_ self = Some (Some v) else True)
    by (destruct (with_std self); [destruct Hsc as (? & ? & ? & ?) |]; eauto).
  assert (Hcs : if with_std self
                then exists v, col_scale_ self = Some (Some v) else True)
    by (destruct (with_std self); [destruct Hsc as (? & ? & ? & ?) |]; eauto).
  rewrite (when_imul_attr self _ _ Hrs), (when_imul_attr self _ _ Hcs).
  rewrite (when_iadd_attr _ _ _ (ex_intro _ rm Hrm)).
  rewrite (when_iadd_attr _ _ _ (ex_intro _ cm Hcm)).
  clear Hrs Hcs.
  rewrite T_T. unfold bind, rbind.
  (* X *= row_scale_ *)
  rewrite (when_inplace_run _ _ (T a0) _ w B0 Hb Hwf).
  rewrite (view_T _ _ Hwf).
  destruct (apply_if (with_std self) PrimFloat.mul _ _) as [R1 |] eqn:E1;
    [| eauto].
  assert (Hwf1 : wf R1)
    by (eapply apply_if_wf; [apply wf_transpose | exact E1]).
  (* X += row_mean_ *)
  erewrite when_inplace_run;
    [| simpl; apply list_lookup_insert_eq, Hlt | apply wf_view, Hwf1].
  rewrite (view_view _ _ Hwf1).
  destruct (apply_if (with_mean self) PrimFloat.add R1 _) as [R2 |] eqn:E2;
    [| eauto].
  assert (Hwf2 : wf R2) by (eapply apply_if_wf; eassumption).
  (* X = X.T; X *= col_scale_ *)
  erewrite when_inplace_run;
    [| simpl; apply list_lookup_insert_eq; rewrite length_insert; exact Hlt
     | apply wf_view, Hwf2].
  rewrite view_view_T.
  destruct (apply_if (with_std self) PrimFloat.mul (transpose R2) _)
    as [R3 |] eqn:E3; [| eauto].
  assert (Hwf3 : wf R3)
    by (eapply apply_if_wf; [apply wf_transpose | exact E3]).
  (* X += col_mean_ *)
  erewrite when_inplace_run;
    [| simpl; apply list_lookup_insert_eq; rewrite !length_insert; exact Hlt
     | apply wf_view, Hwf3].
  rewrite (view_view _ _ Hwf3).
  destruct (apply_if (with_mean self) PrimFloat.add R3 _) as [R4 |] eqn:E4;
    [| eauto].
  assert (Hwf4 : wf R4) by (eapply apply_if_wf; eassumption).
  simpl. unfold ret. rewrite !list_insert_insert_eq. split; [reflexivity | exact Hwf4].
Qed.

Lemma touches_only_inverse_steps (self : estimator) (a0 : ndarray) :
  touches_only (base a0) (inverse_steps self a0).
Proof.
  unfold inverse_steps.
  repeat (apply touches_only_bind; [| intros _]);
    try apply touches_only_when;
    try apply touches_only_ret;
    try (apply (touches_only_imul_attr (T a0)));
    try (apply (touches_only_iadd_attr (T a0)));
    try (apply (touches_only_imul_attr (T (T a0))));
    try (apply (touches_only_iadd_attr (T (T a0)))).
Qed.

End InverseTransform.

Section InverseTransformClaims.

Local Ltac split_conj := repeat match goal with |- _ /\ _ => split end.

(** What [warnings.warn], [np.asarray] and [copy] leave for the
    statements that follow: an array [a0] on a buffer that holds the
    value of the argument; a new buffer unless the argument is an ndarray
    and [copy] is false. *)
Lemma inverse_transform_prepare {A : Type} (k : ndarray -> Py A)
    (X : pyobj) (copy : bool) (w : world) :
  dense_arg (heap w) X ->
  exists a0 h2 B0,
    (warn approx_warning ;;
     run X <- np_asarray X;
     run X <- (if copy then ndarray_copy X else ret X);
     k X) w
    = k a0 {| heap := h2; warnings := warnings w ++ [approx_warning] |}
    /\ h2 !! base a0 = Some B0
    /\ wf B0
    /\ view a0 B0 = value_of (heap w) X
    /\ (exists extra, h2 = heap w ++ extra)
    /\ match X with
       | PyNdarray a =>
           if copy then base a0 = length (heap w)
           else a0 = a /\ h2 = heap w
       | _ => (length (heap w) <= base a0)%nat
       end.
Proof.
  destruct X as [S | a | B]; simpl; [tauto | |].
  - intros (B & Hb & Hwf). destruct copy.
    + exists (NdArray (length (heap w)) false), (heap w ++ [view a B]), (view a B).
      unfold bind, warn, np_asarray, ret, ndarray_copy, alloc, load. simpl.
      rewrite Hb.
      split_conj; eauto using wf_view.
      apply list_lookup_middle. reflexivity.
    + exists a, (heap w), B.
      unfold bind, warn, np_asarray, ret, load. simpl.
      rewrite Hb. split_conj; auto.
      exists []. rewrite app_nil_r. reflexivity.
  - intros Hwf. destruct copy.
    + exists (NdArray (S (length (heap w))) false), (heap w ++ [B; B]), B.
      unfold bind, warn, np_asarray, ret, ndarray_copy, alloc, load. simpl.
      rewrite (list_lookup_middle (heap w) [] B (length (heap w)) eq_refl).
      rewrite length_app. simpl. rewrite Nat.add_1_r.
      rewrite <- app_assoc. simpl.
      split_conj; eauto; try lia.
      change [B; B] with ([B] ++ [B]). rewrite app_assoc.
      apply (list_lookup_middle (heap w ++ [B]) [] B).
      rewrite length_app. simpl. lia.
    + exists (NdArray (length (heap w)) false), (heap w ++ [B]), B.
      unfold bind, warn, np_asarray, ret, alloc. simpl.
      split_conj; eauto; try lia.
      apply list_lookup_middle. reflexivity.
Qed.

Lemma dense_arg_not_sparse (h : list matrix) (X : pyobj) :
  dense_arg h X -> py_issparse X = false.
Proof. destruct X; simpl; tauto. Qed.

Lemma fitted_attributes_guard (self : estimator) :
  fitted_attributes self -> check_is_fitted self = Ok tt.
Proof.
  intros [_ H]. unfold check_is_fitted.
  destruct (with_std self);
    [destruct H as (? & ? & -> & _) | destruct H as [-> _]]; reflexivity.
Qed.

(** [inverse_transform] on a dense argument, the estimator holding the
    attributes of a fit. *)
Lemma inverse_transform_run (self : estimator) (X : pyobj) (copy : bool)
    (w : world) :
  fitted_attributes self ->
  dense_arg (heap w) X ->
  exists a0 h2 B0,
    h2 !! base a0 = Some B0
    /\ wf B0
    /\ view a0 B0 = value_of (heap w) X
    /\ (exists extra, h2 = heap w ++ extra)
    /\ match X with
       | PyNdarray a =>
           if copy then base a0 = length (heap w)
           else a0 = a /\ h2 = heap w
       | _ => (length (heap w) <= base a0)%nat
       end
    /\ inverse_transform self X copy w
       = inverse_steps self a0
           {| heap := h2; warnings := warnings w ++ [approx_warning] |}
    /\ match inverse_value self (value_of (heap w) X) with
       | Ok R =>
           inverse_transform self X copy w
           = (Ok a0, {| heap := <[base a0 := view a0 R]> h2;
                        warnings := warnings w ++ [approx_warning] |})
           /\ wf R
       | Raise e => exists w', inverse_transform self X copy w = (Raise e, w')
       end.
Proof.
  intros Hfit Hd.
  rewrite (inverse_transform_steps self X copy
             (fitted_attributes_guard _ Hfit) (dense_arg_not_sparse _ _ Hd)).
  destruct (inverse_transform_prepare (inverse_steps self) X copy w Hd)
    as (a0 & h2 & B0 & Hrun & Hb & Hwf & Hv & Hext & Hcase).
  exists a0, h2, B0. rewrite Hrun. repeat (split; [assumption |]).
  split; [reflexivity |].
  pose proof (inverse_steps_run self a0
                {| heap := h2; warnings := warnings w ++ [approx_warning] |}
                B0 Hfit Hb Hwf) as Hsteps.
  rewrite Hv in Hsteps. exact Hsteps.
Qed.

End InverseTransformClaims.

(** C7: on a fitted estimator and a dense [X], [inverse_transform]
    computes from the fitted statistics alone: [X] transposed, times the
    row scale, plus the row mean, transposed back, times the column scale,
    plus the column mean, the products only with [with_std] and the sums
    only with [with_mean]. The returned array shows that value, and an
    exception of the formula (shapes that do not broadcast) is the
    exception raised. *)
Theorem inverse_transform_formula
    (check_array : bool -> array_like -> res array_like)
    (incremental_mean_and_var :
       matrix -> float -> option float -> Z -> vec * vec * Z)
    (handle_zeros_in_scale : vec -> vec)
    (self0 self : estimator) (X0 : array_like)
    (X : pyobj) (copy : bool) (w : world) :
  fit check_array incremental_mean_and_var handle_zeros_in_scale self0 X0
  = Ok self ->
  dense_arg (heap w) X ->
  match
    inverse_formula (with_std self) (with_mean self)
      (scale_of (row_scale_ self)) (mean_of (row_mean_ self))
      (scale_of (col_scale_ self)) (mean_of (col_mean_ self))
      (value_of (heap w) X)
  with
  | Ok R =>
      exists a w',
        inverse_transform self X copy w = (Ok a, w') /\ load (heap w') a = R
  | Raise e => exists w', inverse_transform self X copy w = (Raise e, w')
  end.
Proof.
  intros Hfit Hd.
  apply fit_attributes in Hfit as (_ & _ & Hm & Hs).
  destruct (inverse_transform_run self X copy w (conj Hm Hs) Hd)
    as (a0 & h2 & B0 & Hb & _ & _ & _ & _ & _ & Hres).
  unfold inverse_value in Hres.
  destruct (inverse_formula _ _ _ _ _ _ _) as [R | e]; [| exact Hres].
  destruct Hres as [Hres HwfR]. eexists _, _. split; [exact Hres |].
  unfold load. simpl.
  rewrite list_lookup_insert_eq by (eapply lookup_lt_Some, Hb).
  apply view_view, HwfR.
Qed.

Lemma inverse_transform_formula_witness :
  exists est,
    Examples.fitted_default = Ok est
    /\ exists a w',
        inverse_transform est (PySequence Examples.two_by_two) false
          (World [] [])
        = (Ok a, w')
        /\ load (heap w') a
           = Matrix 2 2 [[4; 7.25]; [9; 17]]%float.
Proof.
  eexists. split; [vm_compute; reflexivity |].
  match goal with
  | |- exists a w', inverse_transform ?est ?X ?c ?w = _ /\ _ =>
      exact (inverse_transform_formula
               Sklearn.check_array Sklearn.incremental_mean_and_var
               Sklearn.handle_zeros_in_scale
               (__init__ true true true) est (Dense Examples.two_by_two)
               X c w eq_refl (wfb_wf Examples.two_by_two eq_refl))
  end.
Defined.

(** C8: a call of [inverse_transform] on a fitted estimator with a dense
    argument emits the warning that the inversion is not accurate exactly
    once, whatever the argument holds and whether or not the statements
    that follow raise. *)
Theorem inverse_transform_warns_once
    (self : estimator) (X : pyobj) (copy : bool) (w : world) :
  check_is_fitted self = Ok tt ->
  py_issparse X = false ->
  exists r w',
    inverse_transform self X copy w = (r, w')
    /\ warnings w' = warnings w ++ [approx_warning].
Proof.
  intros Hf Hs. rewrite (inverse_transform_steps self X copy Hf Hs).
  assert (Hsteps : forall a0 w2,
             warnings w2 = warnings w ++ [approx_warning] ->
             exists r w',
               inverse_steps self a0 w2 = (r, w')
               /\ warnings w' = warnings w ++ [approx_warning]).
  { intros a0 w2 Hw2.
    destruct (inverse_steps self a0 w2) as [r w'] eqn:E.
    exists r, w'. split; [reflexivity |].
    destruct (touches_only_inverse_steps self a0 _ _ _ E) as (Hw & _).
    congruence. }
  destruct X as [S | a | B]; [discriminate | |]; destruct copy;
    unfold bind, warn, np_asarray, ret, ndarray_copy, alloc; simpl;
    apply Hsteps; reflexivity.
Qed.

Lemma inverse_transform_warns_once_witness :
  exists est,
    Examples.fitted_default = Ok est
    /\ exists r w',
        inverse_transform est (PySequence Examples.one_row) false
          (World [] [])
        = (r, w')
        /\ warnings w' = [] ++ [approx_warning].
Proof.
  eexists. split; [vm_compute; reflexivity |].
  match goal with
  | |- exists r w', inverse_transform ?est ?X ?c ?w = _ /\ _ =>
      exact (inverse_transform_warns_once est X c w eq_refl eq_refl)
  end.
Defined.

(** C10: with [copy=False] and a float ndarray as argument,
    [inverse_transform] works in the buffer of the caller's array: after
    the call that array shows the result, and the returned array is the
    caller's (same buffer, same orientation). With [copy=True] every
    buffer that existed before the call, the caller's among them, holds
    what it held, and the returned array is on a new buffer. *)
Theorem inverse_transform_in_place
    (check_array : bool -> array_like -> res array_like)
    (incremental_mean_and_var :
       matrix -> float -> option float -> Z -> vec * vec * Z)
    (handle_zeros_in_scale : vec -> vec)
    (self0 self : estimator) (X0 : array_like)
    (a : ndarray) (B : matrix) (w : world) :
  fit check_array incremental_mean_and_var handle_zeros_in_scale self0 X0
  = Ok self ->
  heap w !! base a = Some B ->
  wf B ->
  (forall R,
      inverse_formula (with_std self) (with_mean self)
        (scale_of (row_scale_ self)) (mean_of (row_mean_ self))
        (scale_of (col_scale_ self)) (mean_of (col_mean_ self))
        (view a B) = Ok R ->
      exists w',
        inverse_transform self (PyNdarray a) false w = (Ok a, w')
        /\ heap w' = <[base a := view a R]> (heap w)
        /\ load (heap w') a = R)
  /\ (forall r w',
         inverse_transform self (PyNdarray a) true w = (r, w') ->
         (forall l, (l < length (heap w))%nat -> heap w' !! l = heap w !! l)
         /\ load (heap w') a = view a B
         /\ forall a', r = Ok a' ->
                       base a' = length (heap w) /\ base a' <> base a).
Proof.
  intros Hfit Hb Hwf.
  apply fit_attributes in Hfit as (_ & _ & Hm & Hs).
  pose proof (lookup_lt_Some _ _ _ Hb) as Hlt.
  assert (Hd : dense_arg (heap w) (PyNdarray a)) by (simpl; eauto).
  assert (Hv : value_of (heap w) (PyNdarray a) = view a B)
    by (simpl; unfold load; rewrite Hb; reflexivity).
  split.
  - intros R HR.
    destruct (inverse_transform_run self (PyNdarray a) false w (conj Hm Hs) Hd)
      as (a0 & h2 & B0 & _ & _ & _ & _ & [-> ->] & _ & Hres).
    rewrite Hv in Hres. unfold inverse_value in Hres. rewrite HR in Hres.
    destruct Hres as [Hres HwfR]. eexists. split; [exact Hres |].
    simpl. split; [reflexivity |].
    unfold load. rewrite list_lookup_insert_eq by exact Hlt.
    apply view_view, HwfR.
  - intros r w' Hrun.
    destruct (inverse_transform_run self (PyNdarray a) true w (conj Hm Hs) Hd)
      as (a0 & h2 & B0 & _ & _ & _ & [extra ->] & Hbase & Hsteps & Hres).
    rewrite Hsteps in Hrun.
    destruct (touches_only_inverse_steps self a0 _ _ _ Hrun) as (_ & _ & Hh).
    simpl in Hh.
    assert (Hold : forall l, (l < length (heap w))%nat ->
                             heap w' !! l = heap w !! l).
    { intros l Hl. rewrite Hh by lia. apply lookup_app_l, Hl. }
    split; [exact Hold |]. split.
    + unfold load. rewrite (Hold _ Hlt), Hb. reflexivity.
    + intros a' ->. rewrite <- Hsteps in Hrun.
      destruct (inverse_value self (value_of (heap w) (PyNdarray a)))
        as [R | e].
      * destruct Hres as [Hres _]. rewrite Hres in Hrun.
        injection Hrun as <- _. lia.
      * destruct Hres as [w2 Hres]. rewrite Hres in Hrun. discriminate.
Qed.

Lemma inverse_transform_in_place_witness :
  exists est,
    Examples.fitted_default = Ok est
    /\ (exists w',
           inverse_transform est (PyNdarray (NdArray 0 false)) false
             (World [Examples.two_by_two] [])
           = (Ok (NdArray 0 false), w')
           /\ load (heap w') (NdArray 0 false)
              = Matrix 2 2 [[4; 7.25]; [9; 17]]%float)
    /\ (forall r w',
           inverse_transform est (PyNdarray (NdArray 0 false)) true
             (World [Examples.two_by_two] [])
           = (r, w') ->
           load (heap w') (NdArray 0 false) = Examples.two_by_two).
Proof.
  eexists. split; [vm_compute; reflexivity |].
  match goal with
  | |- (exists w', inverse_transform ?est _ _ ?w = _ /\ _) /\ _ =>
      pose proof (inverse_transform_in_place
                    Sklearn.check_array Sklearn.incremental_mean_and_var
                    Sklearn.handle_zeros_in_scale
                    (__init__ true true true) est (Dense Examples.two_by_two)
                    (NdArray 0 false) Examples.two_by_two w
                    eq_refl eq_refl (wfb_wf Examples.two_by_two eq_refl))
        as [Hin Hcopy]
  end.
  split.
  - destruct (Hin (Matrix 2 2 [[4; 7.25]; [9; 17]]%float) eq_refl)
      as (w' & Hrun & _ & Hload).
    exists w'. split; assumption.
  - intros r w' Hrun. apply (Hcopy r w' Hrun).
Defined.

(** ** Further properties *)

(** The loop of [two_way_standardize] runs its body [n_iter] times, and at
    most [max_iter + 1] times (not at all when [max_iter] is negative). *)
Theorem loop_runs_at_most_max_iter_plus_one
    (check_array : bool -> array_like -> res array_like)
    (scale : bool -> matrix -> res matrix) (norm_fro : matrix -> float)
    (X : array_like) (with_std copy : bool) (max_iter : Z) (tol : float)
    (st : loop_state) :
  two_way_standardize_loop check_array scale norm_fro
    X with_std copy max_iter tol = Ok st ->
  exists X',
    check_array copy X = Ok (Dense X')
    /\ runs scale norm_fro with_std (nrows X') (ncols X') max_iter tol
         (Z.to_nat (n_iter st)) (initial_state X') st
    /\ 0 <= n_iter st <= Z.max 0 (max_iter + 1).
Proof.
  unfold two_way_standardize_loop, rbind.
  destruct (check_array copy X) as [[S | X'] |]; try discriminate.
  intros Hl. exists X'. split; [reflexivity |].
  pose proof (while_loop_count _ _ _ _ _ _ _ _ _ Hl) as Hk.
  simpl in Hk. rewrite Z.sub_0_r in Hk. split; [exact Hk |].
  pose proof (runs_n_iter _ _ _ _ _ _ _ _ _ _ Hk) as Hn.
  pose proof (runs_bound _ _ _ _ _ _ _ _ _ _ Hk) as Hb.
  simpl in Hn, Hb. lia.
Qed.

Lemma loop_runs_at_most_max_iter_plus_one_witness :
  exists st,
    Sklearn.two_way_standardize_loop
      (Dense Examples.slow_data) true true default_max_iter default_tol = Ok st
    /\ exists X',
        Sklearn.check_array true (Dense Examples.slow_data) = Ok (Dense X')
        /\ runs Sklearn.scale Sklearn.norm_fro true (nrows X') (ncols X')
             default_max_iter default_tol
             (Z.to_nat (n_iter st)) (initial_state X') st
        /\ 0 <= n_iter st <= Z.max 0 (default_max_iter + 1).
Proof.
  eexists. split; [vm_compute; reflexivity |].
  apply (loop_runs_at_most_max_iter_plus_one
           Sklearn.check_array Sklearn.scale Sklearn.norm_fro
           (Dense Examples.slow_data) true true default_max_iter default_tol).
  vm_compute. reflexivity.
Defined.

Section NormalReturn.

Variable scale : bool -> matrix -> res matrix.
Variable norm_fro : matrix -> float.
Variables (with_std : bool) (n_rows n_cols : nat) (max_iter : Z) (tol : float).

Hypothesis scale_total :
  forall (b : bool) (A : matrix), exists B, scale b A = Ok B.
Hypothesis scale_shape :
  forall (b : bool) (A B : matrix), scale b A = Ok B -> shape B = shape A.

Lemma loop_body_returns (st : loop_state) :
  shapes_agree st ->
  exists st',
    loop_body scale norm_fro with_std n_rows n_cols st = Ok st'
    /\ shapes_agree st'.
Proof.
  intros (Hor & Hoc & Hcr). unfold loop_body, rbind.
  destruct (scale_total with_std (transpose (Xrow_polish st))) as [Xcol Hc].
  destruct (scale_total with_std (transpose Xcol)) as [Xrow Hr].
  rewrite Hc, Hr.
  pose proof (scale_shape _ _ _ Hc) as Hsc.
  pose proof (scale_shape _ _ _ Hr) as Hsr.
  assert (Hrow : shape Xrow = shape (Xrow_polish st)).
  { rewrite Hsr, shape_transpose. unfold shape in Hsc. simpl in Hsc.
    injection Hsc as -> ->. reflexivity. }
  destruct (msub_same_shape (oldXrow st) Xrow) as [drow ->]; [congruence |].
  destruct (msub_same_shape (oldXcol st) Xcol) as [dcol ->]; [congruence |].
  eexists. split; [reflexivity |]. unfold shapes_agree. simpl.
  repeat split.
  rewrite Hsc. unfold shape in *. simpl. congruence.
Qed.

Lemma while_loop_returns (st : loop_state) :
  shapes_agree st ->
  exists st',
    while_loop scale norm_fro with_std n_rows n_cols max_iter tol st = Ok st'.
Proof.
  remember (Z.to_nat (max_iter + 1 - n_iter st)) as m eqn:Hm.
  revert st Hm. induction m as [m IH] using lt_wf_ind. intros st -> Hst.
  rewrite while_loop_eq.
  destruct (loop_cond max_iter tol st) eqn:Hc; [| eauto].
  destruct (loop_body_returns st Hst) as (st1 & Hb & Hst1). rewrite Hb.
  apply (IH (Z.to_nat (max_iter + 1 - n_iter st1))); [| reflexivity | exact Hst1].
  apply loop_body_n_iter in Hb.
  unfold loop_cond in Hc. apply andb_prop in Hc as [Hc _].
  apply Z.leb_le in Hc. lia.
Qed.

End NormalReturn.

(** On an input that [check_array] accepts, and with a [scale] that
    returns an array of the shape of its argument, [two_way_standardize]
    returns an array: the loop ends by its budget at the latest, and no
    statement raises. *)
Theorem two_way_standardize_returns
    (check_array : bool -> array_like -> res array_like)
    (scale : bool -> matrix -> res matrix) (norm_fro : matrix -> float)
    (X : array_like) (X' : matrix) (axis : Z) (with_mean with_std copy : bool)
    (max_iter : Z) (tol : float) (verbose : bool) :
  (forall (b : bool) (A : matrix), exists B, scale b A = Ok B) ->
  (forall (b : bool) (A B : matrix), scale b A = Ok B -> shape B = shape A) ->
  check_array copy X = Ok (Dense X') ->
  exists R,
    two_way_standardize check_array scale norm_fro
      X axis with_mean with_std copy max_iter tol verbose = Ok R.
Proof.
  intros Htotal Hshape Hca.
  unfold two_way_standardize, two_way_standardize_loop, rbind. rewrite Hca.
  destruct (while_loop_returns scale norm_fro with_std (nrows X') (ncols X')
              max_iter tol Htotal Hshape (initial_state X')) as [st ->].
  - unfold shapes_agree. simpl. repeat split.
  - eauto.
Qed.

Lemma two_way_standardize_returns_witness :
  exists R,
    Sklearn.two_way_standardize (Dense Examples.slow_data)
      0 true true true default_max_iter default_tol false = Ok R.
Proof.
  apply (two_way_standardize_returns
           Sklearn.check_array Sklearn.scale Sklearn.norm_fro
           (Dense Examples.slow_data) Examples.slow_data).
  - intros b A. eexists. reflexivity.
  - exact sklearn_scale_shape.
  - reflexivity.
Defined.

Section Elementwise.

Lemma nth_broadcast (v : vec) (n j : nat) :
  length v = n -> (j < n)%nat ->
  nth (if Nat.eqb (length v) 1 then 0%nat else j) v 0%float = nth j v 0%float.
Proof.
  intros Hl Hj. destruct (Nat.eqb (length v) 1) eqn:E; [| reflexivity].
  apply Nat.eqb_eq in E. f_equal. lia.
Qed.

Lemma apply_if_tabulate (c : bool) (op : float -> float -> float)
    (r0 c0 : nat) (f : nat -> nat -> float) (v : vec) :
  length v = c0 ->
  apply_if c op (tabulate r0 c0 f) v
  = Ok (tabulate r0 c0 (fun i j => cond_op c op (f i j) (nth j v 0%float))).
Proof.
  intros Hl. unfold apply_if, cond_op. destruct c; [| reflexivity].
  unfold inplace_bcast. simpl. rewrite Hl, Nat.eqb_refl. simpl. f_equal.
  apply tabulate_ext. intros i j Hi Hj.
  rewrite mget_tabulate by assumption.
  rewrite <- Hl at 1. rewrite (nth_broadcast v c0 j Hl Hj). reflexivity.
Qed.

Lemma transpose_tabulate (r0 c0 : nat) (f : nat -> nat -> float) :
  transpose (tabulate r0 c0 f) = tabulate c0 r0 (fun i j => f j i).
Proof.
  unfold transpose. simpl. apply tabulate_ext. intros i j Hi Hj.
  apply mget_tabulate; assumption.
Qed.

End Elementwise.

(** ** Edge cases and outcomes of [two_way_standardize] *)

(** With a negative [max_iter], or a [tol] that is not below infinity, the
    guard is false at once: the body never runs, [scale] is not called,
    and [two_way_standardize] returns the validated input as it is. *)
Theorem two_way_standardize_without_iteration
    (check_array : bool -> array_like -> res array_like)
    (scale : bool -> matrix -> res matrix) (norm_fro : matrix -> float)
    (X : array_like) (X' : matrix) (axis : Z) (with_mean with_std copy : bool)
    (max_iter : Z) (tol : float) (verbose : bool) :
  check_array copy X = Ok (Dense X') ->
  wf X' ->
  max_iter < 0 \/ (tol <? infinity)%float = false ->
  two_way_standardize check_array scale norm_fro
    X axis with_mean with_std copy max_iter tol verbose = Ok X'.
Proof.
  intros Hca Hwf Hedge.
  unfold two_way_standardize, two_way_standardize_loop, rbind. rewrite Hca.
  rewrite while_loop_eq.
  assert (Hc : loop_cond max_iter tol (initial_state X') = false).
  { unfold loop_cond. simpl. destruct Hedge as [Hm | Ht].
    - apply andb_false_intro1. apply Z.leb_gt. exact Hm.
    - apply andb_false_intro2. exact Ht. }
  rewrite Hc. simpl. rewrite (transpose_involutive _ Hwf). reflexivity.
Qed.

Lemma two_way_standardize_without_iteration_witness :
  Sklearn.two_way_standardize (Dense Examples.docstring_data)
    0 true true true (-1) default_tol false
  = Ok Examples.docstring_data.
Proof.
  apply (two_way_standardize_without_iteration
           Sklearn.check_array Sklearn.scale Sklearn.norm_fro
           (Dense Examples.docstring_data) Examples.docstring_data
           0 true true true (-1) default_tol false).
  - reflexivity.
  - apply wfb_wf. reflexivity.
  - left. lia.
Defined.

(** When [two_way_standardize] leaves its loop normally, either the last
    error is not above [tol] or the budget is used up
    ([n_iter = max_iter + 1], or no run at all for a negative [max_iter]);
    and with [max_iter >= 0] and [tol] below infinity the body has run at
    least once, the error starting at infinity. *)
Theorem two_way_standardize_exit
    (check_array : bool -> array_like -> res array_like)
    (scale : bool -> matrix -> res matrix) (norm_fro : matrix -> float)
    (X : array_like) (with_std copy : bool) (max_iter : Z) (tol : float)
    (st : loop_state) :
  two_way_standardize_loop check_array scale norm_fro
    X with_std copy max_iter tol = Ok st ->
  ((tol <? err_norm st)%float = false \/ n_iter st = Z.max 0 (max_iter + 1))
  /\ (0 <= max_iter -> (tol <? infinity)%float = true -> 1 <= n_iter st).
Proof.
  unfold two_way_standardize_loop, rbind.
  destruct (check_array copy X) as [[S | X'] |]; try discriminate.
  intros Hl. apply while_loop_runs in Hl as (k & Hk & Hex).
  pose proof (runs_n_iter _ _ _ _ _ _ _ _ _ _ Hk) as Hn.
  pose proof (runs_bound _ _ _ _ _ _ _ _ _ _ Hk) as Hb.
  simpl in Hn, Hb. split.
  - unfold loop_cond in Hex. apply andb_false_iff in Hex as [Hex | Hex].
    + right. apply Z.leb_gt in Hex. lia.
    + left. exact Hex.
  - intros Hm Ht. destruct k as [| k]; [| lia].
    inversion Hk; subst. unfold loop_cond in Hex. simpl in Hex.
    rewrite Ht in Hex. apply andb_false_iff in Hex as [Hex | Hex];
      [apply Z.leb_gt in Hex; lia | discriminate].
Qed.

Lemma two_way_standardize_exit_witness :
  exists st,
    Sklearn.two_way_standardize_loop (Dense Examples.docstring_data)
      true true default_max_iter default_tol = Ok st
    /\ ((default_tol <? err_norm st)%float = false
        \/ n_iter st = Z.max 0 (default_max_iter + 1))
    /\ (0 <= default_max_iter ->
        (default_tol <? infinity)%float = true -> 1 <= n_iter st).
Proof.
  eexists. split; [vm_compute; reflexivity |].
  apply (two_way_standardize_exit
           Sklearn.check_array Sklearn.scale Sklearn.norm_fro
           (Dense Examples.docstring_data) true true
           default_max_iter default_tol).
  vm_compute. reflexivity.
Defined.

Section Failures.

Variable scale : bool -> matrix -> res matrix.
Variable norm_fro : matrix -> float.
Variables (with_std : bool) (n_rows n_cols : nat) (max_iter : Z) (tol : float).

(** An exception of the body is an exception of [scale], or the
    ValueError of a subtraction whose operands do not broadcast. *)
Lemma loop_body_raises (st : loop_state) (e : exn) :
  loop_body scale norm_fro with_std n_rows n_cols st = Raise e ->
  (exists A, scale with_std A = Raise e) \/ e = ValueError.
Proof.
  unfold loop_body, rbind.
  destruct (scale with_std (transpose (Xrow_polish st))) as [Xcol |] eqn:Hc;
    [| intros [= <-]; eauto].
  destruct (scale with_std (transpose Xcol)) as [Xrow |] eqn:Hr;
    [| intros [= <-]; eauto].
  assert (Hsub : forall A B e', msub A B = Raise e' -> e' = ValueError).
  { intros A B e'. unfold msub.
    destruct (broadcast_dim (nrows A) (nrows B)),
      (broadcast_dim (ncols A) (ncols B)); congruence. }
  destruct (msub (oldXrow st) Xrow) eqn:Hdr;
    [| intros [= <-]; right; eapply Hsub, Hdr].
  destruct (msub (oldXcol st) Xcol) eqn:Hdc;
    [discriminate | intros [= <-]; right; eapply Hsub, Hdc].
Qed.

(** An exception of the loop is the exception of a run of the body that
    was entered with the guard true. *)
Lemma while_loop_raises (st : loop_state) (e : exn) :
  while_loop scale norm_fro with_std n_rows n_cols max_iter tol st = Raise e ->
  exists k st',
    runs scale norm_fro with_std n_rows n_cols max_iter tol k st st'
    /\ loop_cond max_iter tol st' = true
    /\ loop_body scale norm_fro with_std n_rows n_cols st' = Raise e.
Proof.
  remember (Z.to_nat (max_iter + 1 - n_iter st)) as m eqn:Hm.
  revert st Hm. induction m as [m IH] using lt_wf_ind. intros st -> Hl.
  rewrite while_loop_eq in Hl.
  destruct (loop_cond max_iter tol st) eqn:Hc; [| discriminate].
  destruct (loop_body scale norm_fro with_std n_rows n_cols st)
    as [st1 | e1] eqn:Hb.
  - assert (Hlt : (Z.to_nat (max_iter + 1 - n_iter st1)
                   < Z.to_nat (max_iter + 1 - n_iter st))%nat).
    { pose proof (loop_body_n_iter _ _ _ _ _ _ _ Hb) as Hn.
      unfold loop_cond in Hc. apply andb_prop in Hc as [Hc _].
      apply Z.leb_le in Hc. lia. }
    destruct (IH _ Hlt st1 eq_refl Hl) as (k & st' & Hk & Hc' & Hb').
    exists (S k), st'. split; [eapply runs_S; eassumption | auto].
  - injection Hl as <-. exists 0%nat, st. split; [constructor | auto].
Qed.

End Failures.

(** Every exception of [two_way_standardize] is the exception of
    [check_array], or the TypeError of the sparse branch, or comes from a
    run of the loop body: an exception of [scale], or the ValueError of a
    subtraction of arrays whose shapes do not broadcast. *)
Theorem two_way_standardize_raises
    (check_array : bool -> array_like -> res array_like)
    (scale : bool -> matrix -> res matrix) (norm_fro : matrix -> float)
    (X : array_like) (axis : Z) (with_mean with_std copy : bool)
    (max_iter : Z) (tol : float) (verbose : bool) (e : exn) :
  two_way_standardize check_array scale norm_fro
    X axis with_mean with_std copy max_iter tol verbose = Raise e ->
  check_array copy X = Raise e
  \/ (exists S, check_array copy X = Ok (Sparse S) /\ e = TypeError)
  \/ (exists X' k st,
         check_array copy X = Ok (Dense X')
         /\ runs scale norm_fro with_std (nrows X') (ncols X') max_iter tol
              k (initial_state X') st
         /\ loop_cond max_iter tol st = true
         /\ loop_body scale norm_fro with_std (nrows X') (ncols X') st = Raise e
         /\ ((exists A, scale with_std A = Raise e) \/ e = ValueError)).
Proof.
  unfold two_way_standardize, two_way_standardize_loop, rbind.
  destruct (check_array copy X) as [[S | X'] | e0].
  - intros [= <-]. right. left. eauto.
  - destruct (while_loop _ _ _ _ _ _ _ _) as [st |] eqn:Hl; [discriminate |].
    intros [= ->]. right. right.
    apply while_loop_raises in Hl as (k & st & Hk & Hc & Hb).
    exists X', k, st. repeat split; try assumption.
    eapply loop_body_raises, Hb.
  - intros [= <-]. left. reflexivity.
Qed.

Lemma two_way_standardize_raises_witness :
  Sklearn.check_array true (Dense (Matrix 0 2 [])) = Raise ValueError
  \/ (exists S,
         Sklearn.check_array true (Dense (Matrix 0 2 [])) = Ok (Sparse S)
         /\ ValueError = TypeError)
  \/ (exists X' k st,
         Sklearn.check_array true (Dense (Matrix 0 2 [])) = Ok (Dense X')
         /\ runs Sklearn.scale Sklearn.norm_fro true (nrows X') (ncols X')
              default_max_iter default_tol k (initial_state X') st
         /\ loop_cond default_max_iter default_tol st = true
         /\ loop_body Sklearn.scale Sklearn.norm_fro true
              (nrows X') (ncols X') st = Raise ValueError
         /\ ((exists A, Sklearn.scale true A = Raise ValueError)
             \/ ValueError = ValueError)).
Proof.
  apply (two_way_standardize_raises
           Sklearn.check_array Sklearn.scale Sklearn.norm_fro
           (Dense (Matrix 0 2 [])) 0 true true true
           default_max_iter default_tol false).
  reflexivity.
Defined.

(** ** The life cycle of the estimator *)

(** After a successful [fit], [transform] does not stop at the guard: on
    an input that [check_array] accepts (and accepts again when
    [two_way_standardize] validates it), with a [scale] that returns
    arrays of the shape of its argument, it returns an array of the shape
    of the input. *)
Theorem fit_then_transform
    (check_array : bool -> array_like -> res array_like)
    (scale : bool -> matrix -> res matrix) (norm_fro : matrix -> float)
    (incremental_mean_and_var :
       matrix -> float -> option float -> Z -> vec * vec * Z)
    (handle_zeros_in_scale : vec -> vec)
    (self est : estimator) (X0 X : array_like) (X' : matrix) (cp : bool) :
  (forall (b : bool) (A : matrix), exists B, scale b A = Ok B) ->
  (forall (b : bool) (A B : matrix), scale b A = Ok B -> shape B = shape A) ->
  fit check_array incremental_mean_and_var handle_zeros_in_scale self X0
  = Ok est ->
  check_array cp X = Ok (Dense X') ->
  check_array true (Dense X') = Ok (Dense X') ->
  exists R,
    transform check_array scale norm_fro est X cp = Ok R
    /\ shape R = shape X'.
Proof.
  intros Htotal Hshape Hfit Hca Hca'.
  apply fit_fitted in Hfit.
  rewrite (transform_fitted _ _ _ _ _ _ Hfit), Hca. simpl.
  unfold two_way_standardize, two_way_standardize_loop, rbind. rewrite Hca'.
  destruct (while_loop_returns scale norm_fro true (nrows X') (ncols X')
              default_max_iter default_tol Htotal Hshape (initial_state X'))
    as [st Hl].
  { unfold shapes_agree. simpl. repeat split. }
  rewrite Hl. eexists. split; [reflexivity |].
  apply while_loop_runs in Hl as (k & Hk & _).
  apply (runs_shape _ _ _ _ _ _ _ Hshape) in Hk.
  rewrite shape_transpose. unfold shape in Hk. simpl in Hk.
  injection Hk as -> ->. reflexivity.
Qed.

Lemma fit_then_transform_witness :
  exists est,
    Examples.fitted_default = Ok est
    /\ exists R,
        Sklearn.transform est (Dense Examples.docstring_data) false = Ok R
        /\ shape R = shape Examples.docstring_data.
Proof.
  eexists. split; [vm_compute; reflexivity |].
  match goal with
  | |- exists R, Sklearn.transform ?est _ _ = _ /\ _ =>
      apply (fit_then_transform
               Sklearn.check_array Sklearn.scale Sklearn.norm_fro
               Sklearn.incremental_mean_and_var Sklearn.handle_zeros_in_scale
               (__init__ true true true) est
               (Dense Examples.two_by_two) (Dense Examples.docstring_data)
               Examples.docstring_data false)
  end.
  - intros b A. eexists. reflexivity.
  - exact sklearn_scale_shape.
  - reflexivity.
  - reflexivity.
  - reflexivity.
Defined.

(** [fit] starts from nothing: fitting an estimator that was fitted before
    gives what fitting it the first time on the same data gives; no
    statistic of the earlier fit is kept or accumulated. *)
Theorem refit_discards_statistics
    (check_array : bool -> array_like -> res array_like)
    (incremental_mean_and_var :
       matrix -> float -> option float -> Z -> vec * vec * Z)
    (handle_zeros_in_scale : vec -> vec)
    (self est : estimator) (X1 X2 : array_like) :
  fit check_array incremental_mean_and_var handle_zeros_in_scale self X1
  = Ok est ->
  fit check_array incremental_mean_and_var handle_zeros_in_scale est X2
  = fit check_array incremental_mean_and_var handle_zeros_in_scale self X2.
Proof.
  intros Hfit.
  assert (Hpar : with_std est = with_std self
                 /\ with_mean est = with_mean self
                 /\ copy est = copy self).
  { revert Hfit. unfold fit, rbind.
    destruct (check_array (copy self) X1) as [[S | X'] |]; try discriminate.
    destruct (incremental_mean_and_var X' _ _ _) as [[cm cv] cn].
    destruct (incremental_mean_and_var (transpose X') _ _ _) as [[rm rv] rn].
    intros [= <-]. repeat split. }
  destruct Hpar as (Hs & Hm & Hc).
  unfold fit. rewrite Hs, Hm, Hc. reflexivity.
Qed.

Lemma refit_discards_statistics_witness :
  exists est,
    Examples.fitted_default = Ok est
    /\ Sklearn.fit est (Dense Examples.docstring_data)
       = Sklearn.fit (__init__ true true true) (Dense Examples.docstring_data).
Proof.
  eexists. split; [vm_compute; reflexivity |].
  match goal with
  | |- Sklearn.fit ?est _ = _ =>
      apply (refit_discards_statistics
               Sklearn.check_array Sklearn.incremental_mean_and_var
               Sklearn.handle_zeros_in_scale
               (__init__ true true true) est
               (Dense Examples.two_by_two) (Dense Examples.docstring_data))
  end.
  reflexivity.
Defined.

(** The row statistics are the column statistics of the transposed data:
    fitting on [X.T] gives the estimator fitted on [X] with the row and
    the column attributes exchanged. *)
Theorem fit_transpose_swaps_statistics
    (check_array : bool -> array_like -> res array_like)
    (incremental_mean_and_var :
       matrix -> float -> option float -> Z -> vec * vec * Z)
    (handle_zeros_in_scale : vec -> vec)
    (self : estimator) (X : matrix) :
  wf X ->
  check_array (copy self) (Dense X) = Ok (Dense X) ->
  check_array (copy self) (Dense (transpose X)) = Ok (Dense (transpose X)) ->
  exists est estT,
    fit check_array incremental_mean_and_var handle_zeros_in_scale
      self (Dense X) = Ok est
    /\ fit check_array incremental_mean_and_var handle_zeros_in_scale
         self (Dense (transpose X)) = Ok estT
    /\ row_mean_ estT = col_mean_ est
    /\ col_mean_ estT = row_mean_ est
    /\ row_var_ estT = col_var_ est
    /\ col_var_ estT = row_var_ est
    /\ row_scale_ estT = col_scale_ est
    /\ col_scale_ estT = row_scale_ est
    /\ n_cols_seen_ estT = n_rows_seen_ est
    /\ n_rows_seen_ estT = n_cols_seen_ est.
Proof.
  intros Hwf Hca HcaT. unfold fit, rbind. rewrite Hca, HcaT.
  rewrite (transpose_involutive _ Hwf).
  destruct (incremental_mean_and_var X _ _ _) as [[cm cv] cn].
  destruct (incremental_mean_and_var (transpose X) _ _ _) as [[rm rv] rn].
  eexists _, _. repeat split.
Qed.

Lemma fit_transpose_swaps_statistics_witness :
  exists est estT,
    Sklearn.fit (__init__ true true true) (Dense Examples.docstring_data)
    = Ok est
    /\ Sklearn.fit (__init__ true true true)
         (Dense (transpose Examples.docstring_data)) = Ok estT
    /\ row_mean_ estT = col_mean_ est
    /\ col_mean_ estT = row_mean_ est
    /\ row_var_ estT = col_var_ est
    /\ col_var_ estT = row_var_ est
    /\ row_scale_ estT = col_scale_ est
    /\ col_scale_ estT = row_scale_ est
    /\ n_cols_seen_ estT = n_rows_seen_ est
    /\ n_rows_seen_ estT = n_cols_seen_ est.
Proof.
  apply (fit_transpose_swaps_statistics
           Sklearn.check_array Sklearn.incremental_mean_and_var
           Sklearn.handle_zeros_in_scale
           (__init__ true true true) Examples.docstring_data).
  - apply wfb_wf. reflexivity.
  - reflexivity.
  - reflexivity.
Defined.

(** ** Outcomes of [inverse_transform] *)

Section InverseOutcomes.

(** The in-place statements, one after the other: where they stop and
    what the buffer of [a0] holds then. *)
Lemma inverse_steps_outcome (self : estimator) (a0 : ndarray) (w : world)
    (B0 : matrix) :
  fitted_attributes self ->
  heap w !! base a0 = Some B0 ->
  wf B0 ->
  let put (a : ndarray) (R : matrix) :=
    {| heap := <[base a0 := view a R]> (heap w); warnings := warnings w |} in
  match
    apply_if (with_std self) PrimFloat.mul (transpose (view a0 B0))
      (scale_of (row_scale_ self))
  with
  | Raise e => inverse_steps self a0 w = (Raise e, w)
  | Ok R1 =>
      match apply_if (with_mean self) PrimFloat.add R1 (mean_of (row_mean_ self)) with
      | Raise e => inverse_steps self a0 w = (Raise e, put (T a0) R1)
      | Ok R2 =>
          match
            apply_if (with_std self) PrimFloat.mul (transpose R2)
              (scale_of (col_scale_ self))
          with
          | Raise e => inverse_steps self a0 w = (Raise e, put (T a0) R2)
          | Ok R3 =>
              match
                apply_if (with_mean self) PrimFloat.add R3
                  (mean_of (col_mean_ self))
              with
              | Raise e => inverse_steps self a0 w = (Raise e, put a0 R3)
              | Ok R4 => inverse_steps self a0 w = (Ok a0, put a0 R4)
              end
          end
      end
  end.
Proof.
  intros [(rm & cm & Hrm & Hcm) Hsc] Hb Hwf put.
  pose proof (lookup_lt_Some _ _ _ Hb) as Hlt.
  unfold inverse_steps.
  assert (Hrs : if with_std self
                then exists v, row_scale_ self = Some (Some v) else True)
    by (destruct (with_std self); [destruct Hsc as (? & ? & ? & ?) |]; eauto).
  assert (Hcs : if with_std self
                then exists v, col_scale_ self = Some (Some v) else True)
    by (destruct (with_std self); [destruct Hsc as (? & ? & ? & ?) |]; eauto).
  rewrite (when_imul_attr self _ _ Hrs), (when_imul_attr self _ _ Hcs).
  rewrite (when_iadd_attr _ _ _ (ex_intro _ rm Hrm)).
  rewrite (when_iadd_attr _ _ _ (ex_intro _ cm Hcm)).
  clear Hrs Hcs.
  rewrite T_T. unfold bind.
  rewrite (when_inplace_run _ _ (T a0) _ w B0 Hb Hwf).
  rewrite (view_T _ _ Hwf).
  destruct (apply_if (with_std self) PrimFloat.mul _ _) as [R1 |] eqn:E1;
    [| reflexivity].
  assert (Hwf1 : wf R1)
    by (eapply apply_if_wf; [apply wf_transpose | exact E1]).
  erewrite when_inplace_run;
    [| simpl; apply list_lookup_insert_eq, Hlt | apply wf_view, Hwf1].
  rewrite (view_view _ _ Hwf1).
  destruct (apply_if (with_mean self) PrimFloat.add R1 _) as [R2 |] eqn:E2;
    [| reflexivity].
  assert (Hwf2 : wf R2) by (eapply apply_if_wf; eassumption).
  erewrite when_inplace_run;
    [| simpl; apply list_lookup_insert_eq; rewrite length_insert; exact Hlt
     | apply wf_view, Hwf2].
  rewrite view_view_T.
  destruct (apply_if (with_std self) PrimFloat.mul (transpose R2) _)
    as [R3 |] eqn:E3;
    [| unfold put; simpl; rewrite !list_insert_insert_eq; reflexivity].
  assert (Hwf3 : wf R3)
    by (eapply apply_if_wf; [apply wf_transpose | exact E3]).
  erewrite when_inplace_run;
    [| simpl; apply list_lookup_insert_eq; rewrite !length_insert; exact Hlt
     | apply wf_view, Hwf3].
  rewrite (view_view _ _ Hwf3).
  destruct (apply_if (with_mean self) PrimFloat.add R3 _) as [R4 |] eqn:E4;
    unfold put; simpl; unfold ret; rewrite !list_insert_insert_eq; reflexivity.
Qed.

Lemma value_of_wf (h : list matrix) (X : pyobj) :
  dense_arg h X -> wf (value_of h X).
Proof.
  destruct X as [S | a | B]; simpl; [tauto | | auto].
  intros (B & Hb & Hwf). unfold load. rewrite Hb. apply wf_view, Hwf.
Qed.

Lemma apply_if_shape (c : bool) (op : float -> float -> float)
    (X R : matrix) (v : vec) :
  apply_if c op X v = Ok R -> shape R = shape X.
Proof.
  unfold apply_if. destruct c.
  - intros H. apply inplace_bcast_wf in H. tauto.
  - intros [= <-]. reflexivity.
Qed.

Lemma inverse_formula_shape (with_std with_mean : bool)
    (row_scale row_mean col_scale col_mean : vec) (X R : matrix) :
  inverse_formula with_std with_mean row_scale row_mean col_scale col_mean X
  = Ok R ->
  shape R = shape X.
Proof.
  unfold inverse_formula, rbind.
  destruct (apply_if with_std PrimFloat.mul (transpose X) row_scale)
    as [X1 |] eqn:E1; [| discriminate].
  destruct (apply_if with_mean PrimFloat.add X1 row_mean)
    as [X2 |] eqn:E2; [| discriminate].
  destruct (apply_if with_std PrimFloat.mul (transpose X2) col_scale)
    as [X3 |] eqn:E3; [| discriminate].
  destruct (apply_if with_mean PrimFloat.add X3 col_mean)
    as [X4 |] eqn:E4; [| discriminate].
  intros [= <-].
  apply apply_if_shape in E1, E2, E3, E4.
  rewrite E4, E3, shape_transpose.
  rewrite E1, shape_transpose in E2. unfold shape in E2.
  injection E2 as -> ->. reflexivity.
Qed.

Lemma apply_if_tabulate_when (c : bool) (op : float -> float -> float)
    (r0 c0 : nat) (f : nat -> nat -> float) (v : vec) :
  (c = true -> length v = c0) ->
  apply_if c op (tabulate r0 c0 f) v
  = Ok (tabulate r0 c0 (fun i j => cond_op c op (f i j) (nth j v 0%float))).
Proof.
  destruct c; [| reflexivity].
  intros Hl. apply apply_if_tabulate. auto.
Qed.

(** The value-level formula on a well-formed array whose shape fits the
    statistics in use. *)
Lemma inverse_formula_tabulate (with_std with_mean : bool)
    (row_scale row_mean col_scale col_mean : vec) (X : matrix) :
  wf X ->
  (with_std = true ->
   length row_scale = nrows X /\ length col_scale = ncols X) ->
  (with_mean = true ->
   length row_mean = nrows X /\ length col_mean = ncols X) ->
  inverse_formula with_std with_mean row_scale row_mean col_scale col_mean X
  = Ok (tabulate (nrows X) (ncols X)
          (fun i j =>
             cond_op with_mean PrimFloat.add
               (cond_op with_std PrimFloat.mul
                  (cond_op with_mean PrimFloat.add
                     (cond_op with_std PrimFloat.mul
                        (mget X i j) (nth i row_scale 0%float))
                     (nth i row_mean 0%float))
                  (nth j col_scale 0%float))
               (nth j col_mean 0%float))).
Proof.
  intros Hwf Hs Hm. unfold inverse_formula, rbind.
  unfold transpose at 1.
  rewrite apply_if_tabulate_when by (intros H; apply Hs, H).
  rewrite apply_if_tabulate_when by (intros H; apply Hm, H).
  rewrite transpose_tabulate.
  rewrite apply_if_tabulate_when by (intros H; apply Hs, H).
  rewrite apply_if_tabulate_when by (intros H; apply Hm, H).
  reflexivity.
Qed.

End InverseOutcomes.

(** What [inverse_transform] computes, element by element: on a fitted
    estimator and a dense [r] by [c] array [X], the row statistics in use
    having length [r] and the column statistics in use length [c] (the
    scales are in use with [with_std], the means with [with_mean]), the
    call returns an array that holds
    [(X[i, j] * row_scale[i] + row_mean[i]) * col_scale[j] + col_mean[j]]
    at [(i, j)], the products only with [with_std] and the sums only with
    [with_mean]. *)
Theorem inverse_transform_elementwise
    (check_array : bool -> array_like -> res array_like)
    (incremental_mean_and_var :
       matrix -> float -> option float -> Z -> vec * vec * Z)
    (handle_zeros_in_scale : vec -> vec)
    (self0 self : estimator) (X0 : array_like)
    (X : pyobj) (cp : bool) (w : world) :
  fit check_array incremental_mean_and_var handle_zeros_in_scale self0 X0
  = Ok self ->
  dense_arg (heap w) X ->
  (with_std self = true ->
   length (scale_of (row_scale_ self)) = nrows (value_of (heap w) X)
   /\ length (scale_of (col_scale_ self)) = ncols (value_of (heap w) X)) ->
  (with_mean self = true ->
   length (mean_of (row_mean_ self)) = nrows (value_of (heap w) X)
   /\ length (mean_of (col_mean_ self)) = ncols (value_of (heap w) X)) ->
  exists a w',
    inverse_transform self X cp w = (Ok a, w')
    /\ load (heap w') a
       = tabulate (nrows (value_of (heap w) X)) (ncols (value_of (heap w) X))
           (fun i j =>
              cond_op (with_mean self) PrimFloat.add
                (cond_op (with_std self) PrimFloat.mul
                   (cond_op (with_mean self) PrimFloat.add
                      (cond_op (with_std self) PrimFloat.mul
                         (mget (value_of (heap w) X) i j)
                         (nth i (scale_of (row_scale_ self)) 0%float))
                      (nth i (mean_of (row_mean_ self)) 0%float))
                   (nth j (scale_of (col_scale_ self)) 0%float))
                (nth j (mean_of (col_mean_ self)) 0%float)).
Proof.
  intros Hfit Hd Hscale Hmean.
  apply fit_attributes in Hfit as (_ & _ & Hm & Hs).
  destruct (inverse_transform_run self X cp w (conj Hm Hs) Hd)
    as (a0 & h2 & B0 & Hb & _ & _ & _ & _ & _ & Hres).
  unfold inverse_value in Hres.
  rewrite (inverse_formula_tabulate _ _ _ _ _ _ _
             (value_of_wf _ _ Hd) Hscale Hmean) in Hres.
  destruct Hres as [Hres HwfR]. eexists _, _. split; [exact Hres |].
  unfold load. simpl.
  rewrite list_lookup_insert_eq by (eapply lookup_lt_Some, Hb).
  apply view_view, HwfR.
Qed.

Lemma inverse_transform_elementwise_witness :
  exists est a w',
    Examples.fitted_default = Ok est
    /\ inverse_transform est (PyNdarray (NdArray 0 false)) false
         (World [Examples.two_by_two] []) = (Ok a, w')
    /\ load (heap w') a = Matrix 2 2 [[4; 7.25]; [9; 17]]%float.
Proof.
  eexists _.
  match goal with
  | |- exists a w', ?F = Ok ?est /\ _ =>
      assert (Hfit : F = Ok est) by (vm_compute; reflexivity);
      destruct (inverse_transform_elementwise
                  Sklearn.check_array Sklearn.incremental_mean_and_var
                  Sklearn.handle_zeros_in_scale
                  (__init__ true true true) est (Dense Examples.two_by_two)
                  (PyNdarray (NdArray 0 false)) false
                  (World [Examples.two_by_two] []) Hfit)
        as (a & w' & Hrun & Hload)
  end.
  - simpl. exists Examples.two_by_two. split; [reflexivity |].
    apply wfb_wf. reflexivity.
  - intros _. split; reflexivity.
  - intros _. split; reflexivity.
  - exists a, w'. split; [exact Hfit |]. split; [exact Hrun |].
    rewrite Hload. vm_compute. reflexivity.
Defined.

(** When [inverse_transform] returns, the array it returns has the shape
    of its argument. *)
Theorem inverse_transform_keeps_shape
    (check_array : bool -> array_like -> res array_like)
    (incremental_mean_and_var :
       matrix -> float -> option float -> Z -> vec * vec * Z)
    (handle_zeros_in_scale : vec -> vec)
    (self0 self : estimator) (X0 : array_like)
    (X : pyobj) (cp : bool) (w w' : world) (a' : ndarray) :
  fit check_array incremental_mean_and_var handle_zeros_in_scale self0 X0
  = Ok self ->
  dense_arg (heap w) X ->
  inverse_transform self X cp w = (Ok a', w') ->
  shape (load (heap w') a') = shape (value_of (heap w) X).
Proof.
  intros Hfit Hd Hrun.
  apply fit_attributes in Hfit as (_ & _ & Hm & Hs).
  destruct (inverse_transform_run self X cp w (conj Hm Hs) Hd)
    as (a0 & h2 & B0 & Hb & _ & _ & _ & _ & _ & Hres).
  unfold inverse_value in Hres.
  destruct (inverse_formula _ _ _ _ _ _ _) as [R | e] eqn:HR.
  - destruct Hres as [Hres HwfR]. rewrite Hres in Hrun.
    injection Hrun as <- <-. unfold load. simpl.
    rewrite list_lookup_insert_eq by (eapply lookup_lt_Some, Hb).
    rewrite (view_view _ _ HwfR). eapply inverse_formula_shape, HR.
  - destruct Hres as [w2 Hres]. rewrite Hres in Hrun. discriminate.
Qed.

Lemma inverse_transform_keeps_shape_witness :
  exists est a' w',
    Examples.fitted_default = Ok est
    /\ inverse_transform est (PySequence Examples.two_by_two) false
         (World [] []) = (Ok a', w')
    /\ shape (load (heap w') a') = shape Examples.two_by_two.
Proof.
  eexists _, _, _. split; [vm_compute; reflexivity |].
  split; [vm_compute; reflexivity |].
  match goal with
  | |- shape (load (heap ?w') ?a') = _ =>
      apply (inverse_transform_keeps_shape
               Sklearn.check_array Sklearn.incremental_mean_and_var
               Sklearn.handle_zeros_in_scale
               (__init__ true true true) _ (Dense Examples.two_by_two)
               (PySequence Examples.two_by_two) false (World [] []) w' a'
               eq_refl (wfb_wf Examples.two_by_two eq_refl) eq_refl)
  end.
Defined.

(** A row scale that fits neither the rows of [X] nor length 1 stops
    [inverse_transform] at its first in-place statement: it raises
    ValueError after the warning, and every buffer that existed before the
    call, the caller's array with [copy=False] too, holds what it held. *)
Theorem inverse_transform_shape_mismatch
    (check_array : bool -> array_like -> res array_like)
    (incremental_mean_and_var :
       matrix -> float -> option float -> Z -> vec * vec * Z)
    (handle_zeros_in_scale : vec -> vec)
    (self0 self : estimator) (X0 : array_like)
    (X : pyobj) (cp : bool) (w : world) :
  fit check_array incremental_mean_and_var handle_zeros_in_scale self0 X0
  = Ok self ->
  with_std self = true ->
  dense_arg (heap w) X ->
  length (scale_of (row_scale_ self)) <> nrows (value_of (heap w) X) ->
  length (scale_of (row_scale_ self)) <> 1%nat ->
  exists w',
    inverse_transform self X cp w = (Raise ValueError, w')
    /\ warnings w' = warnings w ++ [approx_warning]
    /\ forall l, (l < length (heap w))%nat -> heap w' !! l = heap w !! l.
Proof.
  intros Hfit Hstd Hd Hlen Hone.
  apply fit_attributes in Hfit as (_ & _ & Hm & Hs).
  destruct (inverse_transform_run self X cp w (conj Hm Hs) Hd)
    as (a0 & h2 & B0 & Hb & Hwf & Hv & [extra ->] & _ & Hsteps & _).
  pose proof (inverse_steps_outcome self a0
                {| heap := heap w ++ extra;
                   warnings := warnings w ++ [approx_warning] |}
                B0 (conj Hm Hs) Hb Hwf) as Hout.
  cbv zeta in Hout. rewrite Hv, Hstd in Hout.
  unfold apply_if at 1, inplace_bcast in Hout. simpl in Hout.
  apply Nat.eqb_neq in Hlen, Hone. rewrite Hlen, Hone in Hout. simpl in Hout.
  eexists. split; [rewrite Hsteps; exact Hout |].
  simpl. split; [reflexivity |].
  intros l Hl. apply lookup_app_l, Hl.
Qed.

Lemma inverse_transform_shape_mismatch_witness :
  exists est w',
    Examples.fitted_default = Ok est
    /\ inverse_transform est (PyNdarray (NdArray 0 false)) false
         (World [Examples.slow_data] []) = (Raise ValueError, w')
    /\ warnings w' = [] ++ [approx_warning]
    /\ forall l, (l < 1)%nat -> heap w' !! l = [Examples.slow_data] !! l.
Proof.
  eexists _. 
  match goal with
  | |- exists w', ?F = Ok ?est /\ _ =>
      assert (Hfit : F = Ok est) by (vm_compute; reflexivity);
      destruct (inverse_transform_shape_mismatch
                  Sklearn.check_array Sklearn.incremental_mean_and_var
                  Sklearn.handle_zeros_in_scale
                  (__init__ true true true) est (Dense Examples.two_by_two)
                  (PyNdarray (NdArray 0 false)) false
                  (World [Examples.slow_data] []) Hfit eq_refl)
        as (w' & Hrun & Hw & Hh)
  end.
  - simpl. exists Examples.slow_data. split; [reflexivity |].
    apply wfb_wf. reflexivity.
  - vm_compute. discriminate.
  - vm_compute. discriminate.
  - exists w'. repeat split; assumption.
Defined.

(** With [copy=False] an exception does not undo what was written: when
    the row statistics fit [X] and the column scale does not, the call
    raises ValueError and leaves in the caller's array the rows already
    rescaled and shifted, [X[i, j] * row_scale[i] + row_mean[i]] (the sum
    only with [with_mean]). *)
Theorem inverse_transform_partial_update
    (check_array : bool -> array_like -> res array_like)
    (incremental_mean_and_var :
       matrix -> float -> option float -> Z -> vec * vec * Z)
    (handle_zeros_in_scale : vec -> vec)
    (self0 self : estimator) (X0 : array_like)
    (a : ndarray) (B : matrix) (w : world) :
  fit check_array incremental_mean_and_var handle_zeros_in_scale self0 X0
  = Ok self ->
  with_std self = true ->
  heap w !! base a = Some B ->
  wf B ->
  length (scale_of (row_scale_ self)) = nrows (view a B) ->
  (with_mean self = true ->
   length (mean_of (row_mean_ self)) = nrows (view a B)) ->
  length (scale_of (col_scale_ self)) <> ncols (view a B) ->
  length (scale_of (col_scale_ self)) <> 1%nat ->
  exists w',
    inverse_transform self (PyNdarray a) false w = (Raise ValueError, w')
    /\ load (heap w') a
       = tabulate (nrows (view a B)) (ncols (view a B))
           (fun i j =>
              cond_op (with_mean self) PrimFloat.add
                (mget (view a B) i j
                 * nth i (scale_of (row_scale_ self)) 0)%float
                (nth i (mean_of (row_mean_ self)) 0%float)).
Proof.
  intros Hfit Hstd Hb Hwf Hrs Hrm Hcs Hone.
  apply fit_attributes in Hfit as (_ & _ & Hm & Hs).
  pose proof (lookup_lt_Some _ _ _ Hb) as Hlt.
  assert (Hd : dense_arg (heap w) (PyNdarray a)) by (simpl; eauto).
  destruct (inverse_transform_run self (PyNdarray a) false w (conj Hm Hs) Hd)
    as (a0 & h2 & B0 & Hb0 & Hwf0 & _ & _ & [-> ->] & Hsteps & _).
  rewrite Hb in Hb0. injection Hb0 as <-.
  pose proof (inverse_steps_outcome self a
                {| heap := heap w;
                   warnings := warnings w ++ [approx_warning] |}
                B (conj Hm Hs) Hb Hwf) as Hout.
  cbv zeta in Hout. rewrite Hstd in Hout.
  unfold transpose at 1 in Hout.
  rewrite (apply_if_tabulate_when true) in Hout by (intros _; exact Hrs).
  rewrite apply_if_tabulate_when in Hout by exact Hrm.
  rewrite transpose_tabulate in Hout.
  unfold apply_if at 1, inplace_bcast in Hout. simpl in Hout.
  apply Nat.eqb_neq in Hcs, Hone. rewrite Hcs, Hone in Hout. simpl in Hout.
  eexists. split; [rewrite Hsteps; exact Hout |].
  unfold load. simpl. rewrite list_lookup_insert_eq by exact Hlt.
  rewrite view_view_T, transpose_tabulate. reflexivity.
Qed.

Lemma inverse_transform_partial_update_witness :
  exists est w',
    Examples.fitted_default = Ok est
    /\ inverse_transform est (PyNdarray (NdArray 0 false)) false
         (World [Matrix 2 3 [[1; 2; 3]; [4; 5; 6]]%float] [])
       = (Raise ValueError, w')
    /\ load (heap w') (NdArray 0 false)
       = Matrix 2 3 [[2; 2.5; 3]; [8; 9; 10]]%float.
Proof.
  eexists _.
  match goal with
  | |- exists w', ?F = Ok ?est /\ _ =>
      assert (Hfit : F = Ok est) by (vm_compute; reflexivity);
      destruct (inverse_transform_partial_update
                  Sklearn.check_array Sklearn.incremental_mean_and_var
                  Sklearn.handle_zeros_in_scale
                  (__init__ true true true) est (Dense Examples.two_by_two)
                  (NdArray 0 false) (Matrix 2 3 [[1; 2; 3]; [4; 5; 6]]%float)
                  (World [Matrix 2 3 [[1; 2; 3]; [4; 5; 6]]%float] [])
                  Hfit eq_refl eq_refl)
        as (w' & Hrun & Hload)
  end.
  - apply wfb_wf. reflexivity.
  - reflexivity.
  - reflexivity.
  - vm_compute. discriminate.
  - vm_compute. discriminate.
  - exists w'. split; [exact Hfit |]. split; [exact Hrun |].
    rewrite Hload. vm_compute. reflexivity.
Defined.

(** Given a nested sequence, [inverse_transform] converts it into a new
    array and works there: whatever the outcome, no buffer that existed
    before the call is written, and a returned array is on a new buffer. *)
Theorem inverse_transform_sequence_is_fresh
    (check_array : bool -> array_like -> res array_like)
    (incremental_mean_and_var :
       matrix -> float -> option float -> Z -> vec * vec * Z)
    (handle_zeros_in_scale : vec -> vec)
    (self0 self : estimator) (X0 : array_like)
    (B : matrix) (cp : bool) (w w' : world) (r : res ndarray) :
  fit check_array incremental_mean_and_var handle_zeros_in_scale self0 X0
  = Ok self ->
  wf B ->
  inverse_transform self (PySequence B) cp w = (r, w') ->
  (forall l, (l < length (heap w))%nat -> heap w' !! l = heap w !! l)
  /\ (forall a', r = Ok a' -> (length (heap w) <= base a')%nat).
Proof.
  intros Hfit Hwf Hrun.
  apply fit_attributes in Hfit as (_ & _ & Hm & Hs).
  destruct (inverse_transform_run self (PySequence B) cp w (conj Hm Hs) Hwf)
    as (a0 & h2 & B0 & _ & _ & _ & [extra ->] & Hbase & Hsteps & Hres).
  simpl in Hbase. split.
  - rewrite Hsteps in Hrun.
    destruct (touches_only_inverse_steps self a0 _ _ _ Hrun) as (_ & _ & Hh).
    simpl in Hh. intros l Hl. rewrite Hh by lia. apply lookup_app_l, Hl.
  - intros a' ->.
    destruct (inverse_value self (value_of (heap w) (PySequence B)))
      as [R | e].
    + destruct Hres as [Hres _]. rewrite Hres in Hrun.
      injection Hrun as <- _. exact Hbase.
    + destruct Hres as [w2 Hres]. rewrite Hres in Hrun. discriminate.
Qed.

Lemma inverse_transform_sequence_is_fresh_witness :
  exists est r w',
    Examples.fitted_default = Ok est
    /\ inverse_transform est (PySequence Examples.two_by_two) true
         (World [Examples.one_row] []) = (r, w')
    /\ (forall l, (l < 1)%nat -> heap w' !! l = [Examples.one_row] !! l)
    /\ (forall a', r = Ok a' -> (1 <= base a')%nat).
Proof.
  eexists _, _, _. split; [vm_compute; reflexivity |].
  split; [vm_compute; reflexivity |].
  apply (inverse_transform_sequence_is_fresh
           Sklearn.check_array Sklearn.incremental_mean_and_var
           Sklearn.handle_zeros_in_scale
           (__init__ true true true) _ (Dense Examples.two_by_two)
           Examples.two_by_two true (World [Examples.one_row] []) _ _
           eq_refl (wfb_wf Examples.two_by_two eq_refl)).
  vm_compute. reflexivity.
Defined.

Section FittedLengths.

Variable check_array : bool -> array_like -> res array_like.
Variable incremental_mean_and_var :
  matrix -> float -> option float -> Z -> vec * vec * Z.
Variable handle_zeros_in_scale : vec -> vec.

(** [_incremental_mean_and_var] returns one mean and one variance per
    column of its argument. *)
Hypothesis incremental_lengths :
  forall (A : matrix) (m : float) (v : option float) (n : Z),
    length (fst (fst (incremental_mean_and_var A m v n))) = ncols A
    /\ length (snd (fst (incremental_mean_and_var A m v n))) = ncols A.

(** [_handle_zeros_in_scale] keeps the length of its argument. *)
Hypothesis handle_zeros_length :
  forall v : vec, length (handle_zeros_in_scale v) = length v.

(** The fitted statistics have one entry per row, respectively per column,
    of the validated data. *)
Lemma fit_statistics_lengths (self est : estimator) (X0 : array_like)
    (X0' : matrix) :
  fit check_array incremental_mean_and_var handle_zeros_in_scale self X0
  = Ok est ->
  check_array (copy self) X0 = Ok (Dense X0') ->
  length (mean_of (row_mean_ est)) = nrows X0'
  /\ length (mean_of (col_mean_ est)) = ncols X0'
  /\ (with_std est = true ->
      length (scale_of (row_scale_ est)) = nrows X0'
      /\ length (scale_of (col_scale_ est)) = ncols X0').
Proof.
  unfold fit, rbind. intros Hfit Hca. rewrite Hca in Hfit.
  pose proof (incremental_lengths X0' 0%float
                (if with_std self then Some 0%float else None) 0) as Hc.
  pose proof (incremental_lengths (transpose X0') 0%float
                (if with_std self then Some 0%float else None) 0) as Hr.
  destruct (incremental_mean_and_var X0' _ _ _) as [[cm cv] cn].
  destruct (incremental_mean_and_var (transpose X0') _ _ _) as [[rm rv] rn].
  simpl in Hc, Hr. destruct Hc as [Hcm Hcv], Hr as [Hrm Hrv].
  injection Hfit as <-. simpl. repeat split; try assumption;
    destruct (with_std self); try discriminate; simpl;
    rewrite handle_zeros_length; unfold np_sqrt; rewrite length_map;
    assumption.
Qed.

End FittedLengths.

(** [fit] followed by [inverse_transform] on a dense array of the shape of
    the fitted data never raises (the collaborators returning one
    statistic per column): the returned array holds
    [(X[i, j] * row_scale[i] + row_mean[i]) * col_scale[j] + col_mean[j]]
    at [(i, j)], the products only with [with_std] and the sums only with
    [with_mean]. *)
Theorem fit_then_inverse_transform
    (check_array : bool -> array_like -> res array_like)
    (incremental_mean_and_var :
       matrix -> float -> option float -> Z -> vec * vec * Z)
    (handle_zeros_in_scale : vec -> vec)
    (self est : estimator) (X0 : array_like) (X0' : matrix)
    (X : pyobj) (cp : bool) (w : world) :
  (forall (A : matrix) (m : float) (v : option float) (n : Z),
      length (fst (fst (incremental_mean_and_var A m v n))) = ncols A
      /\ length (snd (fst (incremental_mean_and_var A m v n))) = ncols A) ->
  (forall v : vec, length (handle_zeros_in_scale v) = length v) ->
  fit check_array incremental_mean_and_var handle_zeros_in_scale self X0
  = Ok est ->
  check_array (copy self) X0 = Ok (Dense X0') ->
  dense_arg (heap w) X ->
  shape (value_of (heap w) X) = shape X0' ->
  exists a w',
    inverse_transform est X cp w = (Ok a, w')
    /\ load (heap w') a
       = tabulate (nrows X0') (ncols X0')
           (fun i j =>
              cond_op (with_mean est) PrimFloat.add
                (cond_op (with_std est) PrimFloat.mul
                   (cond_op (with_mean est) PrimFloat.add
                      (cond_op (with_std est) PrimFloat.mul
                         (mget (value_of (heap w) X) i j)
                         (nth i (scale_of (row_scale_ est)) 0%float))
                      (nth i (mean_of (row_mean_ est)) 0%float))
                   (nth j (scale_of (col_scale_ est)) 0%float))
                (nth j (mean_of (col_mean_ est)) 0%float)).
Proof.
  intros Himv Hhz Hfit Hca Hd Hshape.
  destruct (fit_statistics_lengths _ _ _ Himv Hhz _ _ _ _ Hfit Hca)
    as (Hrm & Hcm & Hsc).
  apply fit_attributes in Hfit as (_ & _ & Hm & Hs).
  unfold shape in Hshape. injection Hshape as Hr Hc.
  destruct (inverse_transform_run est X cp w (conj Hm Hs) Hd)
    as (a0 & h2 & B0 & Hb & _ & _ & _ & _ & _ & Hres).
  unfold inverse_value in Hres.
  rewrite (inverse_formula_tabulate _ _ _ _ _ _ _ (value_of_wf _ _ Hd))
    in Hres.
  - destruct Hres as [Hres HwfR]. eexists _, _. split; [exact Hres |].
    unfold load. simpl.
    rewrite list_lookup_insert_eq by (eapply lookup_lt_Some, Hb).
    rewrite (view_view _ _ HwfR), Hr, Hc. reflexivity.
  - intros Hstd. rewrite Hr, Hc. apply Hsc, Hstd.
  - intros _. rewrite Hr, Hc. split; assumption.
Qed.

Section SklearnLengths.

Lemma sklearn_incremental_lengths
    (A : matrix) (m : float) (v : option float) (n : Z) :
  length (fst (fst (Sklearn.incremental_mean_and_var A m v n))) = ncols A
  /\ length (snd (fst (Sklearn.incremental_mean_and_var A m v n))) = ncols A.
Proof.
  unfold Sklearn.incremental_mean_and_var, Sklearn.columns. simpl.
  rewrite !length_map, !length_seq. split; reflexivity.
Qed.

Lemma sklearn_handle_zeros_length (v : vec) :
  length (Sklearn.handle_zeros_in_scale v) = length v.
Proof. unfold Sklearn.handle_zeros_in_scale. apply length_map. Qed.

End SklearnLengths.

Lemma fit_then_inverse_transform_witness :
  exists est a w',
    Sklearn.fit (__init__ true true true) (Dense Examples.docstring_data)
    = Ok est
    /\ inverse_transform est (PySequence Examples.docstring_data) false
         (World [] []) = (Ok a, w')
    /\ load (heap w') a
       = Matrix 4 2 [[2; 0.75]; [2; 0.75]; [2.75; 1.5]; [2.75; 1.5]]%float.
Proof.
  eexists _.
  match goal with
  | |- exists a w', ?F = Ok ?est /\ _ =>
      assert (Hfit : F = Ok est) by (vm_compute; reflexivity);
      destruct (fit_then_inverse_transform
                  Sklearn.check_array Sklearn.incremental_mean_and_var
                  Sklearn.handle_zeros_in_scale
                  (__init__ true true true) est
                  (Dense Examples.docstring_data) Examples.docstring_data
                  (PySequence Examples.docstring_data) false (World [] [])
                  sklearn_incremental_lengths sklearn_handle_zeros_length
                  Hfit eq_refl (wfb_wf Examples.docstring_data eq_refl)
                  eq_refl)
        as (a & w' & Hrun & Hload)
  end.
  exists a, w'. split; [exact Hfit |]. split; [exact Hrun |].
  rewrite Hload. vm_compute. reflexivity.
Defined.

Section LastRun.

Variable scale : bool -> matrix -> res matrix.
Variable norm_fro : matrix -> float.
Variables (with_std : bool) (n_rows n_cols : nat) (max_iter : Z) (tol : float).

(** After at least one run, the state is what the last run of the body
    left: the runs before it lead to a state where the guard holds, and
    the body takes that state to the final one. *)
Lemma runs_last (k : nat) (st st' : loop_state) :
  runs scale norm_fro with_std n_rows n_cols max_iter tol (S k) st st' ->
  exists st1,
    runs scale norm_fro with_std n_rows n_cols max_iter tol k st st1
    /\ loop_cond max_iter tol st1 = true
    /\ loop_body scale norm_fro with_std n_rows n_cols st1 = Ok st'.
Proof.
  revert st. induction k as [| k IH]; intros st H.
  - inversion H as [| ? ? st1 ? Hc Hb Hr]; subst.
    inversion Hr; subst. exists st. split; [constructor | split; assumption].
  - inversion H as [| ? ? st1 ? Hc Hb Hr]; subst.
    apply IH in Hr as (st2 & Hr & Hc2 & Hb2).
    exists st2. split; [| split; assumption].
    eapply runs_S; eassumption.
Qed.

End LastRun.

(** With [max_iter >= 0] and [tol] below infinity, what
    [two_way_standardize] returns comes from the last run of the loop
    body: the loop ends in a state [st] with the guard false, the body
    took a state [st_prev], reached from the initial one by runs of the
    body and with the guard true, to [st], and in that last run [scale]
    returned the final column-working matrix on the transposed
    row-working matrix of [st_prev] and then the final row-working matrix
    on the transposed final column-working matrix; the result is the
    transpose of that last array. *)
Theorem two_way_standardize_result_is_scaled
    (check_array : bool -> array_like -> res array_like)
    (scale : bool -> matrix -> res matrix) (norm_fro : matrix -> float)
    (X : array_like) (axis : Z) (with_mean with_std copy : bool)
    (max_iter : Z) (tol : float) (verbose : bool) (R : matrix) :
  0 <= max_iter ->
  (tol <? infinity)%float = true ->
  two_way_standardize check_array scale norm_fro
    X axis with_mean with_std copy max_iter tol verbose = Ok R ->
  exists X' k st_prev st,
    check_array copy X = Ok (Dense X')
    /\ two_way_standardize_loop check_array scale norm_fro
         X with_std copy max_iter tol = Ok st
    /\ runs scale norm_fro with_std (nrows X') (ncols X') max_iter tol
         k (initial_state X') st_prev
    /\ loop_cond max_iter tol st_prev = true
    /\ loop_body scale norm_fro with_std (nrows X') (ncols X') st_prev = Ok st
    /\ loop_cond max_iter tol st = false
    /\ scale with_std (transpose (Xrow_polish st_prev)) = Ok (Xcol_polish st)
    /\ scale with_std (transpose (Xcol_polish st)) = Ok (Xrow_polish st)
    /\ R = transpose (Xrow_polish st).
Proof.
  intros Hm Ht HR.
  apply two_way_standardize_inv in HR as (X' & st & Hca & Hl & Hloop & ->).
  apply while_loop_runs in Hl as (k & Hk & Hex).
  destruct k as [| k].
  - inversion Hk; subst. unfold loop_cond in Hex. simpl in Hex.
    rewrite Ht in Hex. apply andb_false_iff in Hex as [Hex | Hex];
      [apply Z.leb_gt in Hex; lia | discriminate].
  - apply runs_last in Hk as (st1 & Hk & Hc1 & Hb).
    exists X', k, st1, st.
    pose proof Hb as Hinv.
    apply loop_body_inv in Hinv
      as (Xcol & Xrow & ? & ? & Hc & Hr & _ & _ & Hst).
    rewrite Hst in *. simpl.
    repeat match goal with |- _ /\ _ => split end;
      solve [assumption | reflexivity].
Qed.

Lemma two_way_standardize_result_is_scaled_witness :
  exists R X' k st_prev st,
    Sklearn.two_way_standardize (Dense Examples.two_by_two)
      0 true false true default_max_iter default_tol false = Ok R
    /\ Sklearn.check_array true (Dense Examples.two_by_two) = Ok (Dense X')
    /\ Sklearn.two_way_standardize_loop (Dense Examples.two_by_two)
         false true default_max_iter default_tol = Ok st
    /\ runs Sklearn.scale Sklearn.norm_fro false (nrows X') (ncols X')
         default_max_iter default_tol k (initial_state X') st_prev
    /\ loop_cond default_max_iter default_tol st_prev = true
    /\ loop_cond default_max_iter default_tol st = false
    /\ Sklearn.scale false (transpose (Xrow_polish st_prev))
       = Ok (Xcol_polish st)
    /\ Sklearn.scale false (transpose (Xcol_polish st))
       = Ok (Xrow_polish st)
    /\ R = transpose (Xrow_polish st).
Proof.
  eexists.
  match goal with
  | |- exists X' k st_prev st, ?F = Ok ?R /\ _ =>
      assert (HR : F = Ok R) by (vm_compute; reflexivity);
      destruct (two_way_standardize_result_is_scaled
                  Sklearn.check_array Sklearn.scale Sklearn.norm_fro
                  (Dense Examples.two_by_two) 0 true false true
                  default_max_iter default_tol false R
                  ltac:(unfold default_max_iter; lia) eq_refl HR)
        as (X' & k & st_prev & st & Hca & Hloop & Hk & Hc1 & _ & Hex
            & Hc & Hr & HRt)
  end.
  exists X', k, st_prev, st.
  repeat match goal with |- _ /\ _ => split end; assumption.
Defined.

(** On a fitted estimator, [transform] is [two_way_standardize] with the
    defaults of its signature: for an input that [check_array] accepts
    with either value of [copy], and accepts again once validated, both
    give the same result. *)
Theorem transform_is_two_way_standardize
    (check_array : bool -> array_like -> res array_like)
    (scale : bool -> matrix -> res matrix) (norm_fro : matrix -> float)
    (self : estimator) (X : array_like) (X' : matrix) (cp : bool) :
  check_is_fitted self = Ok tt ->
  check_array cp X = Ok (Dense X') ->
  check_array true X = Ok (Dense X') ->
  check_array true (Dense X') = Ok (Dense X') ->
  transform check_array scale norm_fro self X cp
  = two_way_standardize check_array scale norm_fro
      X 0 true true true default_max_iter default_tol false.
Proof.
  intros Hf Hcp Htrue Hagain.
  rewrite (transform_fitted _ _ _ _ _ _ Hf), Hcp. simpl.
  unfold two_way_standardize, two_way_standardize_loop, rbind.
  rewrite Hagain, Htrue. reflexivity.
Qed.

Lemma transform_is_two_way_standardize_witness :
  exists est,
    Examples.fitted_without_std = Ok est
    /\ Sklearn.transform est (Dense Examples.slow_data) false
       = Sklearn.two_way_standardize (Dense Examples.slow_data)
           0 true true true default_max_iter default_tol false.
Proof.
  eexists. split; [vm_compute; reflexivity |].
  match goal with
  | |- Sklearn.transform ?est _ _ = _ =>
      apply (transform_is_two_way_standardize
               Sklearn.check_array Sklearn.scale Sklearn.norm_fro
               est (Dense Examples.slow_data) Examples.slow_data false);
        reflexivity
  end.
Defined.
